(** * Snowflake identifier generator (package [snowflake], snowflake.go)

    A shallow embedding of the generator: the [SnowFlake] struct, its two
    constructors [NewWith] and [New], the node identity resolution
    [machineID], and [NextID] with its busy-wait loop.  The system clock is
    an oracle [clock : nat -> Z]: the [n]-th call of [time.Now] made by the
    program reads [clock n], the Unix time in nanoseconds.  Whatever time
    passes between two reads is part of the oracle, so a sequence of reads is
    all the program can observe of the clock. *)

From Stdlib Require Import ZArith List Bool Lia String Sorted.
Import ListNotations.
Local Open Scope Z_scope.

(** ** Machine integers *)

Module MachineInt.

Definition int64 := Z.
Definition int16 := Z.
Definition uint8 := Z.

(** Two's complement wrap-around of a signed [w]-bit result. *)
Definition wrap (w : Z) (z : Z) : Z :=
  (z + 2 ^ (w - 1)) mod 2 ^ w - 2 ^ (w - 1).

Definition wrap64 : Z -> int64 := wrap 64.
Definition wrap16 : Z -> int16 := wrap 16.

Definition in_int64 (z : Z) : Prop := - 2 ^ 63 <= z < 2 ^ 63.

(** Go's [a - b], [a << n] and [a / b] on int64. *)
Definition sub64 (a b : int64) : int64 := wrap64 (a - b).
Definition shl64 (a : int64) (n : Z) : int64 := wrap64 (Z.shiftl a n).
Definition div64 (a b : int64) : int64 := wrap64 (Z.quot a b).

(** Go's [a + b] on int16. *)
Definition add16 (a b : int16) : int16 := wrap16 (a + b).

End MachineInt.
Export MachineInt.

(** ** The part of package [time] the generator uses

    A [Time] is an instant, kept as what [UnixNano] reports for it, together
    with the offset in seconds east of UTC of its location.  [UTC] changes
    the location only.  Calendar dates are proleptic Gregorian. *)

Module time.

Record Time : Set := mkTime { unixNano : int64; zoneOffset : Z }.

Definition UTC (t : Time) : Time := mkTime (unixNano t) 0.
Definition UnixNano (t : Time) : int64 := unixNano t.

(** [time.Now()]: the next reading of the clock, in the local zone. *)
Definition Now (clock : nat -> Z) (zone : Z) (tick : nat) : Time * nat :=
  (mkTime (clock tick) zone, S tick).

(** Day number (days since 1970-01-01) of the date shown in [t]'s zone. *)
Definition localDays (t : Time) : Z :=
  (unixNano t / 1000000000 + zoneOffset t) / 86400.

(** Day number to (year, month, day). *)
Definition civil_from_days (days : Z) : Z * Z * Z :=
  let z := days + 719468 in
  let era := z / 146097 in
  let doe := z - era * 146097 in
  let yoe := (doe - doe / 1460 + doe / 36524 - doe / 146096) / 365 in
  let doy := doe - (365 * yoe + yoe / 4 - yoe / 100) in
  let mp := (5 * doy + 2) / 153 in
  let d := doy - (153 * mp + 2) / 5 + 1 in
  let m := if mp <? 10 then mp + 3 else mp - 9 in
  let y := yoe + era * 400 in
  (if m <=? 2 then y + 1 else y, m, d).

(** (year, month, day) to day number. *)
Definition days_from_civil (y m d : Z) : Z :=
  let y' := if m <=? 2 then y - 1 else y in
  let era := y' / 400 in
  let yoe := y' - era * 400 in
  let doy := (153 * (if 2 <? m then m - 3 else m + 9) + 2) / 5 + d - 1 in
  let doe := yoe * 365 + yoe / 4 - yoe / 100 + doy in
  era * 146097 + doe - 719468.

Definition Year (t : Time) : Z := fst (fst (civil_from_days (localDays t))).
Definition Month (t : Time) : Z := snd (fst (civil_from_days (localDays t))).
Definition Day (t : Time) : Z := snd (civil_from_days (localDays t)).

(** [time.Date(y, m, d, 0, 0, 0, 0, time.UTC)] *)
Definition DateUTC (y m d : Z) : Time :=
  mkTime (days_from_civil y m d * 86400 * 1000000000) 0.

(** Midnight UTC that starts the UTC day containing instant [ns]. *)
Definition startOfUTCDay (ns : Z) : Z :=
  (ns / 1000000000 / 86400) * 86400 * 1000000000.

End time.

(** ** The part of package [net] the generator uses *)

Module net.

Definition IP := list uint8.

(** An interface address: a [*net.IPNet], or a value of another type
    implementing [net.Addr]. *)
Inductive Addr : Set :=
| IPNet (ip : IP) (mask : list uint8)
| OtherAddr (network : string).

Definition isZeros (p : list uint8) : bool := forallb (Z.eqb 0) p.

Definition To4 (ip : IP) : option IP :=
  if (List.length ip =? 4)%nat then Some ip
  else if (List.length ip =? 16)%nat
            && isZeros (firstn 10 ip)
            && (nth 10 ip 0 =? 255) && (nth 11 ip 0 =? 255)
       then Some (skipn 12 ip)
       else None.

Definition IPv6loopback : IP := [0;0;0;0;0;0;0;0;0;0;0;0;0;0;0;1].

Definition bytesEqual (a b : IP) : bool :=
  if list_eq_dec Z.eq_dec a b then true else false.

Definition IsLoopback (ip : IP) : bool :=
  match To4 ip with
  | Some ip4 => nth 0 ip4 0 =? 127
  | None => bytesEqual ip IPv6loopback
  end.

(** The IPv4 form of an interface address that is a [*net.IPNet], is not
    a loopback address and has such a form. *)
Definition nonLoopbackIPv4 (a : Addr) : option IP :=
  match a with
  | IPNet ip _ => if IsLoopback ip then None else To4 ip
  | OtherAddr _ => None
  end.

(** What [net.InterfaceAddrs()] hands back. *)
Inductive lookup : Set :=
| LookupError (err : string)
| Addrs (l : list Addr).

End net.

(** ** The generator *)

Definition sequenceMask : Z := Z.shiftl 1 12 - 1.
Definition workerMask : Z := Z.shiftl 1 5 - 1.
Definition dataCenterMask : Z := Z.shiftl 1 5 - 1.

Definition workerLeftShift : Z := 12.
Definition dataCenterLeftShift : Z := 17.
Definition timestampLeftShift : Z := 22.

Record SnowFlake : Set := mkSnowFlake {
  sequence : int16;
  dataCenterID : uint8;
  workerID : uint8;
  lastTimestamp : int64;
  startTime : time.Time
}.

(** The body of the [for _, a := range as] loop of [machineID]. *)
Fixpoint machineID_range (l : list net.Addr) : uint8 * uint8 :=
  match l with
  | [] => (0, 0)
  | a :: rest =>
      match a with
      | net.IPNet ip _ =>
          if net.IsLoopback ip then machineID_range rest
          else match net.To4 ip with
               | Some ip4 => (nth 2 ip4 0, nth 3 ip4 0)
               | None => machineID_range rest
               end
      | net.OtherAddr _ => machineID_range rest
      end
  end.

Definition machineID (ifaddrs : net.lookup) : uint8 * uint8 :=
  match ifaddrs with
  | net.LookupError _ => (0, 0)
  | net.Addrs l => machineID_range l
  end.

Definition NewWith (ifaddrs : net.lookup) (startTime : time.Time)
    (ids : list uint8) : SnowFlake :=
  let '(dataCenterID, workerID) :=
    match ids with
    | id0 :: id1 :: _ => (id0, id1)
    | [id0] => (id0, id0)
    | [] => machineID ifaddrs
    end in
  {| sequence := 0;
     dataCenterID := Z.land dataCenterID dataCenterMask;
     workerID := Z.land workerID workerMask;
     lastTimestamp := 0;
     startTime := time.UTC startTime |}.

Definition New (clock : nat -> Z) (zone : Z) (ifaddrs : net.lookup)
    (tick : nat) : SnowFlake * nat :=
  let '(now, tick') := time.Now clock zone tick in
  let startTime :=
    time.DateUTC (time.Year now) (time.Month now) (time.Day now) in
  let '(dataCenterID, workerID) := machineID ifaddrs in
  (NewWith ifaddrs startTime [dataCenterID; workerID], tick').

(** [genMillisecond]: one more reading of the clock, in milliseconds. *)
Definition genMillisecond (clock : nat -> Z) (zone : Z) (tick : nat)
    : int64 * nat :=
  let '(now, tick') := time.Now clock zone tick in
  (div64 (time.UnixNano (time.UTC now)) 1000000, tick').

(** How a call of [NextID] ends.  [Spinning] is the busy-wait loop still
    polling when the fuel given to it is used up. *)
Inductive outcome : Set :=
| Returned (id : int64)
| Panicked (msg : string)
| Spinning.

(** [for millisecond <= s.lastTimestamp { millisecond = genMillisecond() }] *)
Fixpoint busyWait (fuel : nat) (clock : nat -> Z) (zone : Z)
    (last millisecond : int64) (tick : nat) : option (int64 * nat) :=
  if millisecond <=? last then
    match fuel with
    | O => None
    | S fuel' =>
        let '(millisecond', tick') := genMillisecond clock zone tick in
        busyWait fuel' clock zone last millisecond' tick'
    end
  else Some (millisecond, tick).

Definition backwards : string :=
  "Clock moved backwards, Refusing to generate id".

(** Lines 73-77: the clock reading and the backward-clock check, made
    before the mutex is taken.  [inl] is the reading that passed the check. *)
Definition readAndCheck (clock : nat -> Z) (zone : Z) (s : SnowFlake)
    (tick : nat) : (int64 + string) * nat :=
  let '(now, tick') := time.Now clock zone tick in
  let millisecond := div64 (time.UnixNano (time.UTC now)) 1000000 in
  if millisecond <? lastTimestamp s
  then (inr backwards, tick')
  else (inl millisecond, tick').

(** The generator after [s.sequence = seq] and [s.lastTimestamp = ms]. *)
Definition store (s : SnowFlake) (seq : int16) (ms : int64) : SnowFlake :=
  {| sequence := seq;
     dataCenterID := dataCenterID s;
     workerID := workerID s;
     lastTimestamp := ms;
     startTime := startTime s |}.

(** Lines 79-97: what runs between [s.mutex.Lock()] and [s.mutex.Unlock()].
    Gives the updated generator, the final [millisecond] and the captured
    [sequence]. *)
Definition locked (fuel : nat) (clock : nat -> Z) (zone : Z)
    (s : SnowFlake) (millisecond : int64) (tick : nat)
    : option (SnowFlake * int64 * int16 * nat) :=
  let step1 :=
    if millisecond =? lastTimestamp s then
      let seq := Z.land (add16 (sequence s) 1) sequenceMask in
      if seq =? 0 then
        match busyWait fuel clock zone (lastTimestamp s) millisecond tick with
        | Some (millisecond', tick') => Some (seq, millisecond', tick')
        | None => None
        end
      else Some (seq, millisecond, tick)
    else Some (0, millisecond, tick) in
  match step1 with
  | Some (seq, millisecond', tick') =>
      Some (store s seq millisecond', millisecond', seq, tick')
  | None => None
  end.

(** Lines 99-104: the packing of the identifier. *)
Definition elapsed (s : SnowFlake) (millisecond : int64) : int64 :=
  sub64 millisecond (div64 (time.UnixNano (startTime s)) 1000000).

Definition assemble (s : SnowFlake) (millisecond : int64) (seq : int16)
    : int64 :=
  Z.lor (Z.lor (Z.lor (shl64 (elapsed s millisecond) timestampLeftShift)
                      (shl64 (dataCenterID s) dataCenterLeftShift))
               (shl64 (workerID s) workerLeftShift))
        seq.

(** [NextID] called by one goroutine at a time.  The generator and the
    number of clock readings made so far are threaded through; a panic
    leaves the generator as it was.  A call that is still [Spinning] has
    not returned, and the generator is given as the call found it. *)
Definition NextID (fuel : nat) (clock : nat -> Z) (zone : Z) (s : SnowFlake)
    (tick : nat) : outcome * SnowFlake * nat :=
  match readAndCheck clock zone s tick with
  | (inr msg, tick') => (Panicked msg, s, tick')
  | (inl millisecond, tick') =>
      match locked fuel clock zone s millisecond tick' with
      | None => (Spinning, s, tick')
      | Some (s', millisecond', seq, tick'') =>
          (Returned (assemble s' millisecond' seq), s', tick'')
      end
  end.

(** A sequential series of [n] calls on one generator; the identifiers
    returned, oldest first.  The series ends at the first call that does
    not return. *)
Fixpoint NextIDs (fuel : nat) (clock : nat -> Z) (zone : Z) (n : nat)
    (s : SnowFlake) (tick : nat) : list int64 :=
  match n with
  | O => []
  | S n' =>
      match NextID fuel clock zone s tick with
      | (Returned id, s', tick') => id :: NextIDs fuel clock zone n' s' tick'
      | _ => []
      end
  end.

(** The invariant of the generator: identity fields of 5 bits, sequence of
    12 bits. *)
Definition inv (s : SnowFlake) : Prop :=
  0 <= dataCenterID s <= 31 /\ 0 <= workerID s <= 31 /\
  0 <= sequence s <= 4095.

Definition millis (ns : Z) : int64 := div64 ns 1000000.
Definition startMillis (s : SnowFlake) : int64 :=
  div64 (time.UnixNano (startTime s)) 1000000.

Definition nondecreasing (clock : nat -> Z) : Prop :=
  forall t, clock t <= clock (S t).

(** The three ways a call that starts at reading [t] in state [s] issues an
    identifier, leaving state [s'] and the clock at reading [t']. *)
Inductive issues (clock : nat -> Z) (s : SnowFlake) (t : nat)
    : SnowFlake -> nat -> Prop :=
| issues_new_millisecond :
    lastTimestamp s < millis (clock t) ->
    issues clock s t (store s 0 (millis (clock t))) (S t)
| issues_same_millisecond :
    lastTimestamp s = millis (clock t) ->
    Z.land (add16 (sequence s) 1) sequenceMask <> 0 ->
    issues clock s t
      (store s (Z.land (add16 (sequence s) 1) sequenceMask) (millis (clock t)))
      (S t)
| issues_rollover (k : nat) :
    lastTimestamp s = millis (clock t) ->
    Z.land (add16 (sequence s) 1) sequenceMask = 0 ->
    (forall j : nat, (j < k)%nat ->
       millis (clock (S t + j)%nat) <= lastTimestamp s) ->
    lastTimestamp s < millis (clock (S t + k)%nat) ->
    issues clock s t (store s 0 (millis (clock (S t + k)%nat)))
      (S t + S k)%nat.

(** The generators a program can hold: the struct's fields are unexported,
    so a generator comes from a constructor and changes by [NextID] only. *)
Inductive reachable : SnowFlake -> Prop :=
| reachable_NewWith (ifaddrs : net.lookup) (st : time.Time)
    (ids : list uint8) :
    reachable (NewWith ifaddrs st ids)
| reachable_New (clock : nat -> Z) (zone : Z) (ifaddrs : net.lookup)
    (t : nat) :
    reachable (fst (New clock zone ifaddrs t))
| reachable_NextID (fuel : nat) (clock : nat -> Z) (zone : Z)
    (s : SnowFlake) (t : nat) (o : outcome) (s' : SnowFlake) (t' : nat) :
    reachable s -> NextID fuel clock zone s t = (o, s', t') -> reachable s'.

(** The packed value without any wrap-around, as an unbounded integer. *)
Definition rank (s : SnowFlake) : Z :=
  (lastTimestamp s - startMillis s) * 2 ^ 22
  + dataCenterID s * 2 ^ 17 + workerID s * 2 ^ 12 + sequence s.

(** The elapsed time fits the 41-bit field and its sign. *)
Definition fits41 (e : Z) : Prop := - 2 ^ 41 <= e < 2 ^ 41.

(** ** Several goroutines calling [NextID] on one generator

    A goroutine inside [NextID] is either about to read the clock (line 73),
    or past the check of line 75 and about to take the mutex (line 79), or
    done.  The mutex makes lines 79-97 of one goroutine indivisible for the
    others, so a goroutine advances by one of two steps: [readAndCheck],
    which runs unguarded, and [locked] followed by the packing. *)

Module Concurrent.

Inductive goroutine : Set :=
| AtEntry
| BeforeLock (millisecond : int64)
| Finished (o : outcome).

Record system : Set := mkSystem {
  shared : SnowFlake;
  readings : nat;
  pool : list goroutine
}.

Fixpoint setNth {A : Type} (i : nat) (x : A) (l : list A) : list A :=
  match l, i with
  | [], _ => []
  | _ :: l', O => x :: l'
  | y :: l', S i' => y :: setNth i' x l'
  end.

(** Goroutine [i] makes its next step. *)
Definition advance (fuel : nat) (clock : nat -> Z) (zone : Z) (i : nat)
    (sys : system) : system :=
  match nth_error (pool sys) i with
  | Some AtEntry =>
      match readAndCheck clock zone (shared sys) (readings sys) with
      | (inl millisecond, tick') =>
          mkSystem (shared sys) tick'
                   (setNth i (BeforeLock millisecond) (pool sys))
      | (inr msg, tick') =>
          mkSystem (shared sys) tick'
                   (setNth i (Finished (Panicked msg)) (pool sys))
      end
  | Some (BeforeLock millisecond) =>
      match locked fuel clock zone (shared sys) millisecond (readings sys)
      with
      | Some (s', millisecond', seq, tick') =>
          mkSystem s' tick'
            (setNth i (Finished (Returned (assemble s' millisecond' seq)))
                    (pool sys))
      | None =>
          mkSystem (shared sys) (readings sys)
                   (setNth i (Finished Spinning) (pool sys))
      end
  | _ => sys
  end.

(** A schedule names the goroutine that moves at each step. *)
Definition run (fuel : nat) (clock : nat -> Z) (zone : Z)
    (schedule : list nat) (sys : system) : system :=
  fold_left (fun sys' i => advance fuel clock zone i sys') schedule sys.

(** The identifiers the goroutines have returned. *)
Definition returned (sys : system) : list int64 :=
  flat_map (fun g => match g with
                     | Finished (Returned id) => [id]
                     | _ => []
                     end) (pool sys).

End Concurrent.

(** ** Sample inputs

    Instants are Unix times in nanoseconds; [oct31] is 2026-10-31T00:00:00Z,
    1793404800000 in milliseconds. *)

Module Sample.

Definition oct31 : Z := 1793404800000000000.

(** A clock that shows the readings of [l] in turn and then stays at
    [after]. *)
Definition trace (l : list Z) (after : Z) : nat -> Z :=
  fun j => nth j l after.

(** Three readings within one millisecond, then the next millisecond. *)
Definition clock : nat -> Z :=
  trace [oct31; oct31 + 300000; oct31 + 600000; oct31 + 1200000]
        (oct31 + 1200000).

Definition noAddrs : net.lookup := net.LookupError "no interfaces".

(** Epoch 2026-01-01T00:00:00Z, group 3, worker 7. *)
Definition gen : SnowFlake :=
  NewWith noAddrs (time.mkTime 1767225600000000000 0) [3; 7].

(** Epoch 1970-01-01T00:00:00Z. *)
Definition gen1970 : SnowFlake := NewWith noAddrs (time.mkTime 0 0) [3; 7].

(** Epoch 1950-01-01T00:00:00Z. *)
Definition gen1950 : SnowFlake :=
  NewWith noAddrs (time.mkTime (-631152000000000000) 0) [3; 7].

(** 2039-09-07T15:47:35.551Z and the millisecond after it: 2^41 - 1 and
    2^41 milliseconds after the Unix epoch. *)
Definition clock2039 : nat -> Z :=
  trace [2199023255551000000] 2199023255552000000.

(** A clock held at one millisecond for its first 4100 readings. *)
Definition heldClock : nat -> Z :=
  fun j => if (j <? 4100)%nat then oct31 else oct31 + 1000000.

(** 2026-10-30T19:00:00Z, which clocks in zone UTC+8 show as
    2026-10-31 03:00. *)
Definition evening : Z := 1793386800000000000.
Definition utcPlus8 : Z := 8 * 3600.

End Sample.

(** ** Identifiers and pools used in the statements below *)

(** An identifier whose bits 12-16 and 17-21 are the identity of [s]. *)
Definition carriesIdentity (s : SnowFlake) (id : int64) : Prop :=
  Z.land (Z.shiftr id 12) 31 = workerID s /\
  Z.land (Z.shiftr id 17) 31 = dataCenterID s.

(** Every identifier returned so far by a goroutine of the pool carries the
    identity of [s]. *)
Definition poolCarries (s : SnowFlake) (pool : list Concurrent.goroutine)
    : Prop :=
  Forall (fun g => match g with
                   | Concurrent.Finished (Returned id) => carriesIdentity s id
                   | _ => True
                   end) pool.

(** What a step keeps: the invariant, the configuration, the size of the
    pool, and the identity carried by the identifiers returned so far. *)
Definition kept (sys sys' : Concurrent.system) : Prop :=
  inv (Concurrent.shared sys') /\
  dataCenterID (Concurrent.shared sys') = dataCenterID (Concurrent.shared sys)
  /\ workerID (Concurrent.shared sys') = workerID (Concurrent.shared sys) /\
  startTime (Concurrent.shared sys') = startTime (Concurrent.shared sys) /\
  List.length (Concurrent.pool sys') = List.length (Concurrent.pool sys) /\
  poolCarries (Concurrent.shared sys) (Concurrent.pool sys').


(** The identifiers of [l] whose timestamp field (bits 22 and up) is [T]. *)
Definition stamped (T : Z) (l : list int64) : list int64 :=
  filter (fun id => Z.shiftr id 22 =? T) l.

(** * Properties *)

(** ** Arithmetic of the packing *)

Lemma wrap_small (w z : Z) :
  0 < w -> - 2 ^ (w - 1) <= z < 2 ^ (w - 1) -> wrap w z = z.
Proof.
  intros Hw Hz. unfold wrap.
  assert (E : 2 ^ w = 2 * 2 ^ (w - 1)).
  { replace w with (1 + (w - 1)) at 1 by lia.
    rewrite Z.pow_add_r by lia. reflexivity. }
  rewrite Z.mod_small by lia. lia.
Qed.

Lemma wrap64_small (z : Z) : in_int64 z -> wrap64 z = z.
Proof. intros H. apply wrap_small; [lia | exact H]. Qed.

Lemma wrap_range (w z : Z) :
  0 < w -> - 2 ^ (w - 1) <= wrap w z < 2 ^ (w - 1).
Proof.
  intros Hw. unfold wrap.
  assert (E : 2 ^ w = 2 * 2 ^ (w - 1)).
  { replace w with (1 + (w - 1)) at 1 by lia.
    rewrite Z.pow_add_r by lia. reflexivity. }
  assert (P : 0 < 2 ^ (w - 1)) by (apply Z.pow_pos_nonneg; lia).
  pose proof (Z.mod_pos_bound (z + 2 ^ (w - 1)) (2 ^ w)). lia.
Qed.

(** Shifting left by 22 in 64 bits keeps the low 42 bits of the operand. *)
Lemma shl64_22 (e : Z) : shl64 e 22 = wrap 42 e * 2 ^ 22.
Proof.
  unfold shl64, wrap64, wrap. rewrite Z.shiftl_mul_pow2 by lia.
  change (64 - 1) with 63. change (42 - 1) with 41.
  replace (e * 2 ^ 22 + 2 ^ 63) with ((e + 2 ^ 41) * 2 ^ 22) by lia.
  change (2 ^ 64) with (2 ^ 42 * 2 ^ 22).
  rewrite Z.mul_mod_distr_r by lia. lia.
Qed.

Lemma testbit_small (n b i : Z) :
  0 <= n -> 0 <= b < 2 ^ n -> n <= i -> Z.testbit b i = false.
Proof.
  intros Hn Hb Hi. rewrite <- (Z.mod_small b (2 ^ n)) by exact Hb.
  apply Z.mod_pow2_bits_high. lia.
Qed.

Lemma land_high_low (n a b : Z) :
  0 <= n -> 0 <= b < 2 ^ n -> Z.land (a * 2 ^ n) b = 0.
Proof.
  intros Hn Hb. apply Z.bits_inj'. intros i Hi.
  rewrite Z.land_spec, Z.bits_0.
  destruct (Z.lt_ge_cases i n) as [L | G].
  - rewrite Z.mul_pow2_bits_low by exact L. reflexivity.
  - rewrite (testbit_small n b i) by assumption. apply andb_false_r.
Qed.

Lemma lor_high_low (n a b : Z) :
  0 <= n -> 0 <= b < 2 ^ n -> Z.lor (a * 2 ^ n) b = a * 2 ^ n + b.
Proof.
  intros Hn Hb. pose proof (Z.add_lor_land (a * 2 ^ n) b) as E.
  rewrite (land_high_low n a b Hn Hb) in E. lia.
Qed.

(** The packed value as a sum, for a generator within its invariant. *)
Lemma assemble_sum (s : SnowFlake) (ms seq : Z) :
  0 <= dataCenterID s <= 31 -> 0 <= workerID s <= 31 -> 0 <= seq <= 4095 ->
  assemble s ms seq
  = wrap 42 (elapsed s ms) * 2 ^ 22
    + dataCenterID s * 2 ^ 17 + workerID s * 2 ^ 12 + seq.
Proof.
  intros Hd Hw Hs. unfold assemble.
  unfold timestampLeftShift, dataCenterLeftShift, workerLeftShift.
  rewrite shl64_22.
  unfold shl64. rewrite !Z.shiftl_mul_pow2 by lia.
  rewrite !wrap64_small by (unfold in_int64; lia).
  rewrite (lor_high_low 22) by lia.
  replace (wrap 42 (elapsed s ms) * 2 ^ 22 + dataCenterID s * 2 ^ 17)
    with ((wrap 42 (elapsed s ms) * 2 ^ 5 + dataCenterID s) * 2 ^ 17) by lia.
  rewrite (lor_high_low 17) by lia.
  replace ((wrap 42 (elapsed s ms) * 2 ^ 5 + dataCenterID s) * 2 ^ 17
           + workerID s * 2 ^ 12)
    with (((wrap 42 (elapsed s ms) * 2 ^ 5 + dataCenterID s) * 2 ^ 5
           + workerID s) * 2 ^ 12) by lia.
  rewrite (lor_high_low 12) by lia. lia.
Qed.

(** The packed value is an int64. *)
Lemma assemble_int64 (s : SnowFlake) (ms seq : Z) :
  0 <= dataCenterID s <= 31 -> 0 <= workerID s <= 31 -> 0 <= seq <= 4095 ->
  in_int64 (assemble s ms seq).
Proof.
  intros Hd Hw Hs. rewrite assemble_sum by assumption.
  pose proof (wrap_range 42 (elapsed s ms) ltac:(lia)) as R.
  change (42 - 1) with 41 in R. unfold in_int64. lia.
Qed.

Lemma land_mask_range (x : Z) (n : Z) :
  0 <= n -> 0 <= Z.land x (Z.shiftl 1 n - 1) <= 2 ^ n - 1.
Proof.
  intros Hn.
  assert (E : Z.shiftl 1 n - 1 = Z.ones n)
    by (rewrite Z.shiftl_1_l, Z.ones_equiv; lia).
  rewrite E, Z.land_ones by lia.
  pose proof (Z.mod_pos_bound x (2 ^ n)) as B.
  assert (0 < 2 ^ n) by (apply Z.pow_pos_nonneg; lia). lia.
Qed.

(** The sequence field after [(s.sequence + 1) & sequenceMask]. *)
Lemma next_sequence (q : Z) :
  0 <= q <= 4095 ->
  Z.land (add16 q 1) sequenceMask = if q =? 4095 then 0 else q + 1.
Proof.
  intros Hq. unfold add16, wrap16.
  rewrite wrap_small by lia.
  change sequenceMask with (Z.ones 12). rewrite Z.land_ones by lia.
  destruct (Z.eqb_spec q 4095) as [-> | N]; [reflexivity |].
  apply Z.mod_small. lia.
Qed.

Lemma sequence_in_range (q : Z) : 0 <= Z.land q sequenceMask <= 4095.
Proof. exact (land_mask_range q 12 ltac:(lia)). Qed.

(** ** The busy-wait loop *)

Lemma genMillisecond_eq (clock : nat -> Z) (zone : Z) (t : nat) :
  genMillisecond clock zone t = (millis (clock t), S t).
Proof. reflexivity. Qed.

(** A reading already past [last] leaves the loop at once. *)
Lemma busyWait_past (fuel : nat) (clock : nat -> Z) (zone last ms : Z)
    (t : nat) :
  last < ms -> busyWait fuel clock zone last ms t = Some (ms, t).
Proof.
  intros H. destruct fuel; cbn [busyWait];
    destruct (Z.leb_spec ms last); try lia; reflexivity.
Qed.

(** What the loop returns: the first polled reading that exceeds [last]. *)
Lemma busyWait_result (fuel : nat) (clock : nat -> Z) (zone last : Z) :
  forall (ms : Z) (t : nat) (ms' : Z) (t' : nat),
    ms <= last ->
    busyWait fuel clock zone last ms t = Some (ms', t') ->
    exists k : nat,
      t' = (t + S k)%nat /\ ms' = millis (clock (t + k)%nat) /\ last < ms' /\
      forall j : nat, (j < k)%nat -> millis (clock (t + j)%nat) <= last.
Proof.
  induction fuel as [| fuel IH]; intros ms t ms' t' Hle H; cbn [busyWait] in H.
  - destruct (Z.leb_spec ms last); [discriminate | lia].
  - destruct (Z.leb_spec ms last) as [_ | C]; [| lia].
    rewrite genMillisecond_eq in H.
    destruct (Z.le_gt_cases (millis (clock t)) last) as [L | G].
    + destruct (IH _ _ _ _ L H) as (k & -> & -> & Hgt & Hlow).
      exists (S k). repeat split.
      * lia.
      * f_equal. f_equal. lia.
      * replace (t + S k)%nat with (S t + k)%nat by lia. exact Hgt.
      * intros j Hj. destruct j as [| j].
        -- rewrite Nat.add_0_r. exact L.
        -- replace (t + S j)%nat with (S t + j)%nat by lia.
           apply Hlow. lia.
    + rewrite busyWait_past in H by exact G.
      injection H as <- <-. exists O. repeat split.
      * lia.
      * rewrite Nat.add_0_r. reflexivity.
      * exact G.
      * intros j Hj. lia.
Qed.


(** While the clock shows nothing past [last] the loop keeps polling. *)
Lemma busyWait_frozen (clock : nat -> Z) (zone last : Z) :
  (forall j : nat, millis (clock j) <= last) ->
  forall (fuel : nat) (ms : Z) (t : nat),
    ms <= last -> busyWait fuel clock zone last ms t = None.
Proof.
  intros Hall. induction fuel as [| fuel IH]; intros ms t Hms;
    cbn [busyWait]; destruct (Z.leb_spec ms last); try lia; [reflexivity |].
  rewrite genMillisecond_eq. apply IH. apply Hall.
Qed.

(** ** One call of [NextID] *)

Section OneCall.

Variable clock : nat -> Z.
Variable zone : Z.

Lemma readAndCheck_eq (s : SnowFlake) (t : nat) :
  readAndCheck clock zone s t
  = (if millis (clock t) <? lastTimestamp s
     then inr backwards
     else inl (millis (clock t)), S t).
Proof.
  unfold readAndCheck, time.Now, time.UnixNano, time.UTC, millis. simpl.
  destruct (_ <? _); reflexivity.
Qed.

(** A call that returns took one of the three paths of [issues]. *)
Lemma NextID_Returned (fuel : nat) (s : SnowFlake) (t : nat)
    (id : Z) (s' : SnowFlake) (t' : nat) :
  NextID fuel clock zone s t = (Returned id, s', t') ->
  issues clock s t s' t' /\
  id = assemble s' (lastTimestamp s') (sequence s').
Proof.
  unfold NextID. rewrite readAndCheck_eq.
  destruct (Z.ltb_spec (millis (clock t)) (lastTimestamp s)) as [L | G];
    [discriminate |].
  unfold locked.
  destruct (Z.eqb_spec (millis (clock t)) (lastTimestamp s)) as [E | N].
  - destruct (Z.eqb_spec (Z.land (add16 (sequence s) 1) sequenceMask) 0)
      as [W | NW].
    + destruct (busyWait fuel clock zone (lastTimestamp s)
                  (millis (clock t)) (S t)) as [[ms' t''] |] eqn:B;
        [| discriminate].
      intros H. injection H as <- <- <-.
      apply busyWait_result in B; [| lia].
      destruct B as (k & -> & -> & Hgt & Hlow).
      split; [| reflexivity].
      rewrite W. apply issues_rollover; auto.
    + intros H. injection H as <- <- <-.
      split; [| reflexivity].
      apply issues_same_millisecond; auto.
  - intros H. injection H as <- <- <-.
    split; [| reflexivity].
    apply issues_new_millisecond. lia.
Qed.

(** Each path keeps the configuration and the invariant, and moves the
    pair (timestamp, sequence) strictly up. *)
Lemma issues_facts (s : SnowFlake) (t : nat) (s' : SnowFlake) (t' : nat) :
  issues clock s t s' t' ->
  dataCenterID s' = dataCenterID s /\ workerID s' = workerID s /\
  startTime s' = startTime s /\
  0 <= sequence s' <= 4095 /\
  lastTimestamp s <= lastTimestamp s' /\
  (exists j : nat, (t <= j < t')%nat /\ lastTimestamp s' = millis (clock j)).
Proof.
  intros H. destruct H; cbn [store dataCenterID workerID startTime sequence
                               lastTimestamp].
  - repeat split; try lia. exists t. split; [lia | reflexivity].
  - repeat split; try apply sequence_in_range; try lia.
    exists t. split; [lia | reflexivity].
  - repeat split; try lia. exists (S t + k)%nat. split; [lia | reflexivity].
Qed.

Lemma issues_rank (s : SnowFlake) (t : nat) (s' : SnowFlake) (t' : nat) :
  inv s -> issues clock s t s' t' -> rank s < rank s'.
Proof.
  intros (Hd & Hw & Hq) H. unfold rank, startMillis.
  destruct H; cbn [store dataCenterID workerID startTime sequence
                     lastTimestamp].
  - lia.
  - rewrite next_sequence in * by exact Hq.
    destruct (Z.eqb_spec (sequence s) 4095); [congruence | lia].
  - lia.
Qed.

End OneCall.

(** ** Construction *)

Lemma NewWith_inv (ifaddrs : net.lookup) (st : time.Time) (ids : list uint8) :
  inv (NewWith ifaddrs st ids).
Proof.
  unfold NewWith, inv.
  destruct (match ids with
            | [] => machineID ifaddrs
            | [id0] => (id0, id0)
            | id0 :: id1 :: _ => (id0, id1)
            end) as [d w].
  cbn [dataCenterID workerID sequence].
  pose proof (land_mask_range d 5 ltac:(lia)).
  pose proof (land_mask_range w 5 ltac:(lia)).
  unfold dataCenterMask, workerMask. lia.
Qed.

Lemma New_inv (clock : nat -> Z) (zone : Z) (ifaddrs : net.lookup) (t : nat) :
  inv (fst (New clock zone ifaddrs t)).
Proof.
  unfold New. cbn [time.Now]. destruct (machineID ifaddrs) as [d w].
  cbn [fst]. apply NewWith_inv.
Qed.

(** C4. Explicit construction is a total function (it has no failing
    outcome).  Given one identity value, the group (data-center) id and the
    worker id are both that value masked with 0x1F; given two or more, the
    group id is the first and the worker id the second, each masked with
    0x1F.  The value 37 becomes the identity 5.  The sequence and the last
    timestamp start at 0. *)
Theorem NewWith_identity (ifaddrs : net.lookup) (st : time.Time) :
  (forall a : uint8,
      dataCenterID (NewWith ifaddrs st [a]) = Z.land a 31 /\
      workerID (NewWith ifaddrs st [a]) = Z.land a 31) /\
  (forall (a b : uint8) (rest : list uint8),
      dataCenterID (NewWith ifaddrs st (a :: b :: rest)) = Z.land a 31 /\
      workerID (NewWith ifaddrs st (a :: b :: rest)) = Z.land b 31) /\
  (dataCenterID (NewWith ifaddrs st [37]) = 5 /\
   workerID (NewWith ifaddrs st [37]) = 5) /\
  (forall ids : list uint8,
      sequence (NewWith ifaddrs st ids) = 0 /\
      lastTimestamp (NewWith ifaddrs st ids) = 0 /\
      time.UnixNano (startTime (NewWith ifaddrs st ids)) = time.UnixNano st).
Proof.
  repeat split; try reflexivity.
  all: unfold NewWith;
    destruct (match ids with
              | [] => machineID ifaddrs
              | [id0] => (id0, id0)
              | id0 :: id1 :: _ => (id0, id1)
              end); reflexivity.
Qed.

(** ** Node identity resolution *)

Lemma To4_length (ip ip4 : net.IP) :
  net.To4 ip = Some ip4 -> List.length ip4 = 4%nat.
Proof.
  unfold net.To4.
  destruct (Nat.eqb_spec (List.length ip) 4) as [E | _].
  - intros H. injection H as <-. exact E.
  - destruct (Nat.eqb_spec (List.length ip) 16) as [E | _];
      [| discriminate].
    cbn [andb].
    destruct (net.isZeros (firstn 10 ip) && (nth 10 ip 0 =? 255)
              && (nth 11 ip 0 =? 255)); [| discriminate].
    intros H. injection H as <-.
    change (List.length (skipn 12 ip) = 4%nat).
    rewrite length_skipn, E. reflexivity.
Qed.

Lemma nonLoopbackIPv4_octets (a : net.Addr) (ip4 : net.IP) :
  net.nonLoopbackIPv4 a = Some ip4 ->
  exists o1 o2 o3 o4 : uint8, ip4 = [o1; o2; o3; o4].
Proof.
  intros H. assert (L : List.length ip4 = 4%nat).
  { destruct a as [ip m | n]; cbn in H; [| discriminate].
    destruct (net.IsLoopback ip); [discriminate |].
    exact (To4_length _ _ H). }
  destruct ip4 as [| o1 [| o2 [| o3 [| o4 [| ? ?]]]]]; try discriminate.
  eauto.
Qed.

Lemma machineID_range_skip (pre rest : list net.Addr) :
  Forall (fun x => net.nonLoopbackIPv4 x = None) pre ->
  machineID_range (pre ++ rest) = machineID_range rest.
Proof.
  induction 1 as [| a pre Ha _ IH]; [reflexivity |].
  cbn [app machineID_range]. destruct a as [ip m | n]; [| exact IH].
  cbn in Ha. destruct (net.IsLoopback ip); [exact IH |].
  rewrite Ha. exact IH.
Qed.

(** C6. Node identity resolution returns a pair and nothing else, so no
    error leaves it.  When the address lookup fails the pair is (0, 0).
    Otherwise it is the third and fourth octets of the first address of the
    list that is a non-loopback IPv4 address, and (0, 0) when the list has
    no such address. *)
Theorem machineID_first_ipv4 :
  (forall err : string, machineID (net.LookupError err) = (0, 0)) /\
  (forall (pre post : list net.Addr) (a : net.Addr) (o1 o2 o3 o4 : uint8),
      Forall (fun x => net.nonLoopbackIPv4 x = None) pre ->
      net.nonLoopbackIPv4 a = Some [o1; o2; o3; o4] ->
      machineID (net.Addrs (pre ++ a :: post)) = (o3, o4)) /\
  (forall l : list net.Addr,
      Forall (fun x => net.nonLoopbackIPv4 x = None) l ->
      machineID (net.Addrs l) = (0, 0)).
Proof.
  split; [reflexivity | split].
  - intros pre post a o1 o2 o3 o4 Hpre Ha. cbn [machineID].
    rewrite machineID_range_skip by exact Hpre.
    cbn [machineID_range]. destruct a as [ip m | n]; [| discriminate].
    cbn in Ha. destruct (net.IsLoopback ip); [discriminate |].
    rewrite Ha. reflexivity.
  - intros l Hl. cbn [machineID].
    rewrite <- (app_nil_r l), machineID_range_skip by exact Hl. reflexivity.
Qed.

(** The host has a loopback interface, an IPv6 link-local address and the
    IPv4 address 192.168.7.42 (here in its 16-byte form). *)
Lemma machineID_first_ipv4_witness :
  machineID
    (net.Addrs
       ([net.IPNet [127; 0; 0; 1] [255; 0; 0; 0];
         net.IPNet [254; 128; 0; 0; 0; 0; 0; 0; 0; 0; 0; 0; 0; 0; 0; 9] []]
        ++ net.IPNet [0; 0; 0; 0; 0; 0; 0; 0; 0; 0; 255; 255; 192; 168; 7; 42]
                     [255; 255; 255; 0]
           :: [net.IPNet [10; 0; 0; 1] [255; 0; 0; 0]]))
  = (7, 42)
  /\ machineID (net.Addrs [net.IPNet [127; 0; 0; 1] [255; 0; 0; 0];
                           net.OtherAddr "unix"]) = (0, 0).
Proof.
  destruct machineID_first_ipv4 as (_ & Hfirst & Hnone). split.
  - apply (Hfirst _ _ _ 192 168 7 42).
    + repeat constructor.
    + reflexivity.
  - apply Hnone. repeat constructor.
Defined.

(** ** The invariant *)

Lemma NextID_inv (fuel : nat) (clock : nat -> Z) (zone : Z) (s : SnowFlake)
    (t : nat) (o : outcome) (s' : SnowFlake) (t' : nat) :
  inv s -> NextID fuel clock zone s t = (o, s', t') -> inv s'.
Proof.
  intros Hs H. destruct o as [id | msg |].
  - apply NextID_Returned in H. destruct H as [H _].
    apply issues_facts in H. destruct H as (Ed & Ew & _ & Hq & _).
    destruct Hs as (Hd & Hw & _). unfold inv. rewrite Ed, Ew. auto.
  - unfold NextID in H. destruct (readAndCheck clock zone s t) as [[ms | m] t1].
    + destruct (locked fuel clock zone s ms t1) as [[[[? ?] ?] ?] |];
        [discriminate | congruence].
    + congruence.
  - unfold NextID in H. destruct (readAndCheck clock zone s t) as [[ms | m] t1].
    + destruct (locked fuel clock zone s ms t1) as [[[[? ?] ?] ?] |];
        [discriminate | congruence].
    + congruence.
Qed.

(** C10. After construction by [NewWith] (any number of identity values,
    also none, when they come from the interface addresses) and by [New],
    and after every call of [NextID] however it ends, the group id and the
    worker id are in [0, 31] and the sequence is in [0, 4095]. *)
Theorem generator_invariant :
  (forall (ifaddrs : net.lookup) (st : time.Time) (ids : list uint8),
      inv (NewWith ifaddrs st ids)) /\
  (forall (clock : nat -> Z) (zone : Z) (ifaddrs : net.lookup) (t : nat),
      inv (fst (New clock zone ifaddrs t))) /\
  (forall (fuel : nat) (clock : nat -> Z) (zone : Z) (s : SnowFlake) (t : nat)
          (o : outcome) (s' : SnowFlake) (t' : nat),
      inv s -> NextID fuel clock zone s t = (o, s', t') -> inv s').
Proof.
  split; [exact NewWith_inv | split; [exact New_inv | exact NextID_inv]].
Qed.

(** A host whose address is 10.1.200.77: the octets 200 and 77 are masked
    to 8 and 13, and a call of [NextID] at 2026-10-31 keeps them. *)
Lemma generator_invariant_witness :
  let ifaddrs := net.Addrs [net.IPNet [10; 1; 200; 77] [255; 0; 0; 0]] in
  let clock := fun _ : nat => 1793404800000000000 in
  let s := fst (New clock 0 ifaddrs 0) in
  (dataCenterID s = 8 /\ workerID s = 13) /\
  inv (snd (fst (NextID 0 clock 0 s 1))).
Proof.
  intros ifaddrs clock s. split; [split; reflexivity |].
  destruct generator_invariant as (_ & Hnew & Hnext).
  apply (Hnext 0%nat clock 0 s 1%nat
               (fst (fst (NextID 0 clock 0 s 1)))
               (snd (fst (NextID 0 clock 0 s 1)))
               (snd (NextID 0 clock 0 s 1))).
  - exact (Hnew clock 0 ifaddrs 0%nat).
  - destruct (NextID 0 clock 0 s 1) as [[o s'] t']. reflexivity.
Defined.

(** Hence every generator a program can hold is within the invariant. *)
Lemma reachable_inv (s : SnowFlake) : reachable s -> inv s.
Proof.
  induction 1 as [ifaddrs st ids | clock zone ifaddrs t
                 | fuel clock zone s t o s' t' _ IH E].
  - apply NewWith_inv.
  - apply New_inv.
  - exact (NextID_inv _ _ _ _ _ _ _ _ IH E).
Qed.

(** ** The bit layout *)

Section Layout.

Variable clock : nat -> Z.
Variable zone : Z.

Lemma layout_fields (T d w q : Z) :
  0 <= d <= 31 -> 0 <= w <= 31 -> 0 <= q <= 4095 ->
  let id := T * 2 ^ 22 + d * 2 ^ 17 + w * 2 ^ 12 + q in
  Z.land id 4095 = q /\
  Z.land (Z.shiftr id 12) 31 = w /\
  Z.land (Z.shiftr id 17) 31 = d /\
  Z.shiftr id 22 = T.
Proof.
  intros Hd Hw Hq id.
  change 4095 with (Z.ones 12). change 31 with (Z.ones 5).
  rewrite !Z.land_ones, !Z.shiftr_div_pow2 by lia.
  change (2 ^ 12) with 4096 in *. change (2 ^ 5) with 32.
  change (2 ^ 17) with 131072 in *. change (2 ^ 22) with 4194304 in *.
  subst id. repeat split.
  - symmetry. apply (Z.mod_unique_pos _ _ (T * 1024 + d * 32 + w)); lia.
  - symmetry.
    replace ((T * 4194304 + d * 131072 + w * 4096 + q) / 4096)
      with (T * 1024 + d * 32 + w).
    + apply (Z.mod_unique_pos _ _ (T * 32 + d)); lia.
    + apply (Z.div_unique_pos _ _ _ q); lia.
  - symmetry.
    replace ((T * 4194304 + d * 131072 + w * 4096 + q) / 131072)
      with (T * 32 + d).
    + apply (Z.mod_unique_pos _ _ T); lia.
    + apply (Z.div_unique_pos _ _ _ (w * 4096 + q)); lia.
  - symmetry.
    apply (Z.div_unique_pos _ _ _ (d * 131072 + w * 4096 + q)); lia.
Qed.

(** C2, amended. An identifier returned by [NextID] on a generator within
    its invariant is [(elapsed << 22) | (groupId << 17) | (workerId << 12)
    | sequence]; its bits 0-11 are the sequence captured by the call, in
    [0, 4095], its bits 12-16 the worker id and its bits 17-21 the group
    id.  Shifting it right by 22 gives the elapsed milliseconds reduced to
    42 signed bits, hence the elapsed milliseconds themselves when these
    lie in [-2^41, 2^41). *)
Theorem NextID_layout (fuel : nat) (s : SnowFlake) (t : nat)
    (id : int64) (s' : SnowFlake) (t' : nat) :
  inv s ->
  NextID fuel clock zone s t = (Returned id, s', t') ->
  let e := elapsed s (lastTimestamp s') in
  id = Z.lor (Z.lor (Z.lor (shl64 e 22) (shl64 (dataCenterID s) 17))
                    (shl64 (workerID s) 12))
             (sequence s') /\
  Z.land id 4095 = sequence s' /\ 0 <= sequence s' <= 4095 /\
  Z.land (Z.shiftr id 12) 31 = workerID s /\
  Z.land (Z.shiftr id 17) 31 = dataCenterID s /\
  Z.shiftr id 22 = wrap 42 e /\
  (fits41 e -> Z.shiftr id 22 = e).
Proof.
  intros Hs H e. pose proof (NextID_inv _ _ _ _ _ _ _ _ Hs H) as Hs'.
  apply NextID_Returned in H. destruct H as [Hi ->].
  apply issues_facts in Hi. destruct Hi as (Ed & Ew & Est & Hq & _).
  destruct Hs' as (Hd' & Hw' & _).
  assert (Ee : elapsed s' (lastTimestamp s') = e)
    by (unfold e, elapsed; rewrite Est; reflexivity).
  split.
  { unfold assemble, timestampLeftShift, dataCenterLeftShift,
      workerLeftShift. rewrite Ee, Ed, Ew. reflexivity. }
  rewrite assemble_sum by assumption. rewrite Ee, Ed, Ew in *.
  destruct (layout_fields (wrap 42 e) (dataCenterID s) (workerID s)
              (sequence s') Hd' Hw' Hq) as (F1 & F2 & F3 & F4).
  repeat split; try assumption; try lia.
  intros Hfit. rewrite F4. apply wrap_small; [lia | exact Hfit].
Qed.

(** C9. When the elapsed milliseconds of a call are in [0, 2^41), the
    identifier it returns is not negative (and below 2^63). *)
Theorem NextID_nonnegative (fuel : nat) (s : SnowFlake) (t : nat)
    (id : int64) (s' : SnowFlake) (t' : nat) :
  inv s ->
  NextID fuel clock zone s t = (Returned id, s', t') ->
  0 <= elapsed s (lastTimestamp s') < 2 ^ 41 ->
  0 <= id < 2 ^ 63 /\ Z.testbit id 63 = false.
Proof.
  intros Hs H He. pose proof (NextID_inv _ _ _ _ _ _ _ _ Hs H) as Hs'.
  apply NextID_Returned in H. destruct H as [Hi ->].
  apply issues_facts in Hi. destruct Hi as (Ed & Ew & Est & Hq & _).
  destruct Hs' as (Hd' & Hw' & _).
  assert (Ee : elapsed s' (lastTimestamp s') = elapsed s (lastTimestamp s'))
    by (unfold elapsed; rewrite Est; reflexivity).
  rewrite assemble_sum by assumption. rewrite Ee.
  rewrite wrap_small by lia.
  assert (R : 0 <= elapsed s (lastTimestamp s') * 2 ^ 22
                   + dataCenterID s' * 2 ^ 17 + workerID s' * 2 ^ 12
                   + sequence s' < 2 ^ 63) by lia.
  split; [exact R |].
  apply (testbit_small 63); lia.
Qed.

End Layout.

(** ** A series of calls *)

Section Series.

Variable clock : nat -> Z.
Variable zone : Z.

(** Within the 41-bit range the identifier is the rank of the state the
    call leaves. *)
Lemma assemble_rank (s : SnowFlake) :
  inv s -> fits41 (lastTimestamp s - startMillis s) ->
  assemble s (lastTimestamp s) (sequence s) = rank s.
Proof.
  intros (Hd & Hw & Hq) Hf. unfold fits41 in Hf.
  rewrite assemble_sum by assumption.
  unfold rank, elapsed, sub64. fold (startMillis s).
  rewrite wrap64_small by (unfold in_int64; lia).
  rewrite wrap_small by lia. reflexivity.
Qed.

Lemma NextIDs_above (fuel : nat) :
  forall (n : nat) (s : SnowFlake) (t : nat),
    inv s ->
    (forall j : nat, fits41 (millis (clock j) - startMillis s)) ->
    Forall (fun id => rank s < id) (NextIDs fuel clock zone n s t) /\
    StronglySorted Z.lt (NextIDs fuel clock zone n s t).
Proof.
  induction n as [| n IH]; intros s t Hs Hfit; cbn [NextIDs].
  - split; constructor.
  - destruct (NextID fuel clock zone s t) as [[o s'] t'] eqn:E.
    destruct o as [id | msg |];
      [| split; constructor | split; constructor].
    pose proof (NextID_inv _ _ _ _ _ _ _ _ Hs E) as Hs'.
    apply NextID_Returned in E. destruct E as [Hi ->].
    pose proof (issues_rank _ _ _ _ _ Hs Hi) as Hlt.
    apply issues_facts in Hi.
    destruct Hi as (_ & _ & Est & _ & _ & j & _ & Ej).
    assert (Em : startMillis s' = startMillis s)
      by (unfold startMillis; rewrite Est; reflexivity).
    rewrite assemble_rank; [| exact Hs' | rewrite Ej, Em; apply Hfit].
    destruct (IH s' t' Hs') as [Habove Hsorted].
    { intros i. rewrite Em. apply Hfit. }
    split.
    + constructor; [exact Hlt |].
      eapply Forall_impl; [| exact Habove]. cbn. intros a Ha. lia.
    + constructor; assumption.
Qed.

(** C1, amended. In a sequential series of calls of [NextID] on one
    generator within its invariant, every identifier returned is strictly
    greater than every identifier returned before it, so that they are
    pairwise distinct, as long as the clock readings stay within 2^41
    milliseconds of the epoch on either side.  A reading below the last
    timestamp ends the series by a panic, so the clock need not be assumed
    non-decreasing. *)
Theorem NextIDs_increasing (fuel n : nat) (s : SnowFlake) (t : nat) :
  inv s ->
  (forall j : nat, fits41 (millis (clock j) - startMillis s)) ->
  StronglySorted Z.lt (NextIDs fuel clock zone n s t) /\
  NoDup (NextIDs fuel clock zone n s t).
Proof.
  intros Hs Hfit.
  destruct (NextIDs_above fuel n s t Hs Hfit) as [_ Hsorted].
  split; [exact Hsorted |].
  induction Hsorted as [| a l _ IH Ha]; constructor; [| exact IH].
  intros Hin. rewrite Forall_forall in Ha. specialize (Ha a Hin). lia.
Qed.

(** ** The backward-clock check *)

Lemma NextID_backwards (fuel : nat) (s : SnowFlake) (t : nat) :
  millis (clock t) < lastTimestamp s ->
  NextID fuel clock zone s t = (Panicked backwards, s, S t).
Proof.
  intros H. unfold NextID. rewrite readAndCheck_eq.
  destruct (Z.ltb_spec (millis (clock t)) (lastTimestamp s)); [| lia].
  reflexivity.
Qed.

Lemma NextID_not_backwards (fuel : nat) (s : SnowFlake) (t : nat) :
  lastTimestamp s <= millis (clock t) ->
  NextID fuel clock zone s t
  = match locked fuel clock zone s (millis (clock t)) (S t) with
    | None => (Spinning, s, S t)
    | Some (s', millisecond', seq, t') =>
        (Returned (assemble s' millisecond' seq), s', t')
    end.
Proof.
  intros H. unfold NextID. rewrite readAndCheck_eq.
  destruct (Z.ltb_spec (millis (clock t)) (lastTimestamp s)); [lia |].
  reflexivity.
Qed.



End Series.

(** ** Sequence rollover *)

Section Rollover.

Variable clock : nat -> Z.
Variable zone : Z.


Lemma elapsed_fits (s : SnowFlake) (ms : Z) :
  fits41 (ms - startMillis s) ->
  wrap 42 (elapsed s ms) = ms - startMillis s.
Proof.
  intros Hf. unfold fits41 in Hf. unfold elapsed, sub64.
  fold (startMillis s).
  rewrite wrap64_small by (unfold in_int64; lia).
  apply wrap_small; lia.
Qed.


End Rollover.

(** ** Instances of the theorems above *)

Ltac by_computation :=
  vm_compute; first [reflexivity | discriminate | intuition discriminate].

Tactic Notation "along_trace" ident(j) integer(n) :=
  do n (destruct j as [| j]; [by_computation |]); by_computation.

Lemma Sample_gen_inv : inv Sample.gen.
Proof. apply NewWith_inv. Qed.

Lemma Sample_clock_fits (j : nat) :
  fits41 (millis (Sample.clock j) - startMillis Sample.gen).
Proof. along_trace j 5. Qed.

(** Four calls, three of them in one millisecond. *)
Lemma NextIDs_increasing_witness :
  NextIDs 0 Sample.clock 0 4 Sample.gen 0
  = [109803523277221888; 109803523277221889; 109803523277221890;
     109803523281416192]
  /\ StronglySorted Z.lt (NextIDs 0 Sample.clock 0 4 Sample.gen 0)
  /\ NoDup (NextIDs 0 Sample.clock 0 4 Sample.gen 0).
Proof.
  split; [reflexivity |].
  exact (NextIDs_increasing Sample.clock 0 0 4 Sample.gen 0
           Sample_gen_inv Sample_clock_fits).
Defined.

(** C1 as first stated fails: with the Unix epoch as the generator's epoch
    and a clock that moves forward by one millisecond in September 2039, the
    second identifier is below the first. *)
Lemma NextIDs_increasing_counterexample :
  inv Sample.gen1970 /\
  nondecreasing Sample.clock2039 /\
  NextIDs 0 Sample.clock2039 0 2 Sample.gen1970 0
  = [9223372036851003392; -9223372036854353920] /\
  ~ StronglySorted Z.lt (NextIDs 0 Sample.clock2039 0 2 Sample.gen1970 0).
Proof.
  split; [apply NewWith_inv | split; [| split; [reflexivity |]]].
  - intros t. destruct t as [| [| t]]; by_computation.
  - intros H. change (NextIDs 0 Sample.clock2039 0 2 Sample.gen1970 0)
      with [9223372036851003392; -9223372036854353920] in H.
    inversion H as [| a l _ Ha]; subst.
    inversion Ha as [| b l' Hb _]; subst. revert Hb. by_computation.
Qed.

Lemma NextID_layout_witness :
  Z.land 109803523277221888 4095 = 0 /\
  Z.land (Z.shiftr 109803523277221888 12) 31 = 7 /\
  Z.land (Z.shiftr 109803523277221888 17) 31 = 3 /\
  Z.shiftr 109803523277221888 22 = 26179200000.
Proof.
  destruct (NextID_layout Sample.clock 0 0 Sample.gen 0 109803523277221888
              (store Sample.gen 0 1793404800000) 1 Sample_gen_inv eq_refl)
    as (_ & F1 & _ & F2 & F3 & _ & F4).
  split; [exact F1 | split; [exact F2 | split; [exact F3 |]]].
  apply F4. by_computation.
Defined.

(** C2 as first stated fails: with the epoch at 1950-01-01 a call on
    2026-10-31 has 2424556800000 elapsed milliseconds, and the identifier
    shifted right by 22 is another number. *)
Lemma NextID_layout_counterexample :
  inv Sample.gen1950 /\
  NextID 0 (fun _ => Sample.oct31) 0 Sample.gen1950 0
  = (Returned (-8277415789241929728), store Sample.gen1950 0 1793404800000,
     1%nat) /\
  elapsed Sample.gen1950 1793404800000 = 2424556800000 /\
  Z.shiftr (-8277415789241929728) 22 = -1973489711104 /\
  Z.shiftr (-8277415789241929728) 22 <> elapsed Sample.gen1950 1793404800000.
Proof.
  split; [apply NewWith_inv |]. repeat split; by_computation.
Qed.

Lemma NextID_nonnegative_witness :
  0 <= 109803523277221888 < 2 ^ 63 /\ Z.testbit 109803523277221888 63 = false.
Proof.
  apply (NextID_nonnegative Sample.clock 0 0 Sample.gen 0 109803523277221888
           (store Sample.gen 0 1793404800000) 1 Sample_gen_inv eq_refl).
  by_computation.
Defined.



(** ** The epoch chosen by [New] *)

Lemma days_from_civil_from_days (z : Z) :
  let '(y, m, d) := time.civil_from_days z in time.days_from_civil y m d = z.
Proof.
  unfold time.civil_from_days, time.days_from_civil.
  set (z' := z + 719468).
  set (era := z' / 146097).
  set (doe := z' - era * 146097).
  assert (Hdoe : 0 <= doe < 146097)
    by (unfold doe, era; Z.div_mod_to_equations; lia).
  assert (Ez : z = era * 146097 + doe - 719468) by (unfold doe, z'; lia).
  clearbody doe. clearbody era. clear z'. subst z.
  set (yoe := (doe - doe / 1460 + doe / 36524 - doe / 146096) / 365).
  assert (Hyoe : 0 <= yoe <= 399)
    by (unfold yoe; Z.div_mod_to_equations; lia).
  set (doy := doe - (365 * yoe + yoe / 4 - yoe / 100)).
  assert (Hdoy : 0 <= doy <= 365)
    by (unfold doy, yoe; Z.div_mod_to_equations; lia).
  set (mp := (5 * doy + 2) / 153).
  assert (Hmp : 0 <= mp <= 11) by (unfold mp; Z.div_mod_to_equations; lia).
  assert (Eera : (yoe + era * 400) / 400 = era)
    by (Z.div_mod_to_equations; lia).
  destruct (Z.ltb_spec mp 10).
  - destruct (Z.leb_spec (mp + 3) 2); [lia |].
    destruct (Z.ltb_spec 2 (mp + 3)); [| lia].
    replace (mp + 3 - 3) with mp by lia. rewrite Eera.
    replace (yoe + era * 400 - era * 400) with yoe by lia.
    unfold doy. lia.
  - destruct (Z.leb_spec (mp - 9) 2); [| lia].
    destruct (Z.ltb_spec 2 (mp - 9)); [lia |].
    replace (mp - 9 + 9) with mp by lia.
    replace (yoe + era * 400 + 1 - 1) with (yoe + era * 400) by lia.
    rewrite Eera.
    replace (yoe + era * 400 - era * 400) with yoe by lia.
    unfold doy. lia.
Qed.

(** The epoch of [New] is midnight UTC of the date that the clock shows in
    the local zone. *)
Lemma New_epoch (clock : nat -> Z) (zone : Z) (ifaddrs : net.lookup)
    (t : nat) :
  time.UnixNano (startTime (fst (New clock zone ifaddrs t)))
  = time.localDays (time.mkTime (clock t) zone) * 86400 * 1000000000.
Proof.
  unfold New. cbn [time.Now]. destruct (machineID ifaddrs) as [d w].
  cbn [fst NewWith startTime time.UTC time.UnixNano time.unixNano
       time.DateUTC].
  unfold time.Year, time.Month, time.Day.
  pose proof (days_from_civil_from_days
                (time.localDays (time.mkTime (clock t) zone))) as R.
  destruct (time.civil_from_days
              (time.localDays (time.mkTime (clock t) zone))) as [[y m] dd].
  cbn [fst snd]. rewrite R. reflexivity.
Qed.

(** On a host whose local zone is UTC it is the start of the current UTC
    day. *)
Lemma New_epoch_UTC (clock : nat -> Z) (ifaddrs : net.lookup) (t : nat) :
  time.UnixNano (startTime (fst (New clock 0 ifaddrs t)))
  = time.startOfUTCDay (clock t).
Proof.
  rewrite New_epoch. unfold time.localDays, time.startOfUTCDay.
  cbn [time.unixNano time.zoneOffset]. rewrite Z.add_0_r. reflexivity.
Qed.

(** C5, at an input where the code departs from it.  [New] is called at
    2026-10-30T19:00:00Z on a host in zone UTC+8, where the date is already
    2026-10-31.  The epoch becomes 2026-10-31T00:00:00Z: not the start of
    the current UTC day, 2026-10-30T00:00:00Z, but five hours in the future.
    A call of [NextID] at the same instant then has a negative elapsed time
    and returns a negative identifier. *)
Theorem New_epoch_east_of_UTC :
  let now := fun _ : nat => Sample.evening in
  let s := fst (New now Sample.utcPlus8 Sample.noAddrs 0) in
  time.UnixNano (startTime s) = Sample.oct31 /\
  time.startOfUTCDay Sample.evening = 1793318400000000000 /\
  time.UnixNano (startTime s) <> time.startOfUTCDay Sample.evening /\
  Sample.evening < time.UnixNano (startTime s) /\
  NextID 0 now Sample.utcPlus8 s 1
  = (Returned (-75497472000000), store s 0 1793386800000, 2%nat) /\
  elapsed s 1793386800000 = -18000000.
Proof.
  cbv zeta. repeat split; by_computation.
Qed.

(** ** Goroutines *)




(** C8, at a schedule where the code departs from it.  Three goroutines
    share the generator [Sample.gen]; the clock never goes back.  Goroutine
    2 makes a whole call.  Goroutine 0 then passes the check of line 75 with
    a reading of the same millisecond, and before it takes the mutex
    goroutine 1 makes a whole call with a reading of the next millisecond.
    When goroutine 0 enters its critical section its reading is behind the
    last timestamp, which the check was to exclude: it sets the last
    timestamp back and returns the identifier that goroutine 2 returned.
    With the two steps of goroutine 0 kept together the three identifiers
    are distinct. *)
Theorem NextID_check_outside_lock :
  let clock := Sample.trace [Sample.oct31; Sample.oct31 + 300000]
                            (Sample.oct31 + 1000000) in
  let start := Concurrent.mkSystem Sample.gen 0
                 [Concurrent.AtEntry; Concurrent.AtEntry; Concurrent.AtEntry] in
  let before := Concurrent.run 0 clock 0 [2; 2; 0; 1; 1]%nat start in
  let final := Concurrent.run 0 clock 0 [2; 2; 0; 1; 1; 0]%nat start in
  nondecreasing clock /\
  Concurrent.pool before
  = [Concurrent.BeforeLock 1793404800000;
     Concurrent.Finished (Returned 109803523281416192);
     Concurrent.Finished (Returned 109803523277221888)] /\
  lastTimestamp (Concurrent.shared before) = 1793404800001 /\
  Concurrent.returned final
  = [109803523277221888; 109803523281416192; 109803523277221888] /\
  lastTimestamp (Concurrent.shared final) = 1793404800000 /\
  Concurrent.returned (Concurrent.run 0 clock 0 [2; 2; 0; 0; 1; 1]%nat start)
  = [109803523277221889; 109803523281416192; 109803523277221888].
Proof.
  cbv zeta. split; [| repeat split; by_computation].
  intros t. destruct t as [| [| [| t]]]; by_computation.
Qed.

(** ** 4097 calls within one millisecond

    The clock is held at one millisecond while 4097 calls are made.  The
    first 4096 return the sequence values 0 to 4095 with one timestamp
    field; the last one waits for the next millisecond and returns sequence
    0 with the timestamp field one higher. *)
Example rollover_4097 :
  let ids := NextIDs 4 Sample.heldClock 0 4097 Sample.gen 0 in
  map (fun id => Z.land id 4095) ids
  = map Z.of_nat (seq 0 4096) ++ [0] /\
  map (fun id => Z.shiftr id 22) ids
  = repeat 26179200000 4096 ++ [26179200001].
Proof. cbv zeta. split; vm_compute; reflexivity. Qed.

(** With the clock stuck in that millisecond the 4097th call never leaves
    the loop, whatever the fuel. *)
Example rollover_stuck (fuel : nat) :
  NextID fuel (fun _ => Sample.oct31) 0
    (store Sample.gen 4095 1793404800000) 0
  = (Spinning, store Sample.gen 4095 1793404800000, 1%nat).
Proof.
  rewrite NextID_not_backwards by by_computation.
  unfold locked.
  replace (millis Sample.oct31
           =? lastTimestamp (store Sample.gen 4095 1793404800000))
    with true by reflexivity.
  replace (Z.land (add16 (sequence (store Sample.gen 4095 1793404800000)) 1)
             sequenceMask =? 0) with true by reflexivity.
  rewrite busyWait_frozen; [reflexivity | | by_computation].
  intros j. by_computation.
Qed.

(** * Further properties of the code *)

(** The fields of a returned identifier, as the later proofs use them. *)
Lemma NextID_fields (fuel : nat) (clock : nat -> Z) (zone : Z)
    (s : SnowFlake) (t : nat) (id : int64) (s' : SnowFlake) (t' : nat) :
  inv s ->
  NextID fuel clock zone s t = (Returned id, s', t') ->
  carriesIdentity s id /\
  Z.shiftr id 22 = wrap 42 (elapsed s (lastTimestamp s')).
Proof.
  intros Hs H. pose proof (NextID_inv _ _ _ _ _ _ _ _ Hs H) as Hs'.
  apply NextID_Returned in H. destruct H as [Hi ->].
  apply issues_facts in Hi. destruct Hi as (Ed & Ew & Est & Hq & _).
  destruct Hs' as (Hd' & Hw' & _).
  rewrite assemble_sum by assumption.
  destruct (layout_fields (wrap 42 (elapsed s' (lastTimestamp s')))
              (dataCenterID s') (workerID s') (sequence s') Hd' Hw' Hq)
    as (_ & F2 & F3 & F4).
  unfold carriesIdentity. rewrite <- Ed, <- Ew.
  repeat split; try assumption.
  rewrite F4. unfold elapsed. rewrite Est. reflexivity.
Qed.

(** ** Identifiers of different generators *)

(** X1. Two generators whose (group id, worker id) pairs differ never
    return the same identifier, whatever their epochs, their clocks and the
    moments of the calls (NextID, lines 99-104). *)
Theorem NextID_identity_disjoint
    (fuel1 fuel2 : nat) (clock1 clock2 : nat -> Z) (zone1 zone2 : Z)
    (s1 s2 : SnowFlake) (t1 t2 : nat) (id1 id2 : int64)
    (s1' s2' : SnowFlake) (t1' t2' : nat) :
  inv s1 -> inv s2 ->
  (dataCenterID s1, workerID s1) <> (dataCenterID s2, workerID s2) ->
  NextID fuel1 clock1 zone1 s1 t1 = (Returned id1, s1', t1') ->
  NextID fuel2 clock2 zone2 s2 t2 = (Returned id2, s2', t2') ->
  id1 <> id2.
Proof.
  intros H1 H2 Hne E1 E2 Heq.
  destruct (NextID_fields _ _ _ _ _ _ _ _ H1 E1) as ((W1 & D1) & _).
  destruct (NextID_fields _ _ _ _ _ _ _ _ H2 E2) as ((W2 & D2) & _).
  apply Hne. rewrite <- W1, <- D1, <- W2, <- D2, Heq. reflexivity.
Qed.

(** Same epoch, same clock, same instant; workers 7 and 8. *)
Lemma NextID_identity_disjoint_witness :
  109803523277221888 <> 109803523277225984.
Proof.
  apply (NextID_identity_disjoint 0 0 Sample.clock Sample.clock 0 0
           Sample.gen
           (NewWith Sample.noAddrs (time.mkTime 1767225600000000000 0) [3; 8])
           0 0 109803523277221888 109803523277225984
           (store Sample.gen 0 1793404800000)
           (store (NewWith Sample.noAddrs
                     (time.mkTime 1767225600000000000 0) [3; 8])
                  0 1793404800000) 1 1).
  - apply NewWith_inv.
  - apply NewWith_inv.
  - by_computation.
  - reflexivity.
  - reflexivity.
Defined.

(** ** Calls within one millisecond *)

Lemma assemble_store (s : SnowFlake) (q ms ms' q' : Z) :
  assemble (store s q ms) ms' q' = assemble s ms' q'.
Proof. reflexivity. Qed.

Lemma assemble_succ (s : SnowFlake) (ms q : Z) :
  0 <= dataCenterID s <= 31 -> 0 <= workerID s <= 31 -> 0 <= q < 4095 ->
  assemble s ms (q + 1) = assemble s ms q + 1.
Proof.
  intros Hd Hw Hq. rewrite !assemble_sum by lia. lia.
Qed.

Lemma NextID_same_millisecond (fuel : nat) (clock : nat -> Z) (zone : Z)
    (s : SnowFlake) (t : nat) :
  inv s -> millis (clock t) = lastTimestamp s -> sequence s < 4095 ->
  NextID fuel clock zone s t
  = (Returned (assemble s (lastTimestamp s) (sequence s) + 1),
     store s (sequence s + 1) (lastTimestamp s), S t).
Proof.
  intros (Hd & Hw & Hq) Hnow Hlt.
  rewrite NextID_not_backwards by lia. unfold locked.
  rewrite Hnow, Z.eqb_refl, next_sequence by exact Hq.
  destruct (Z.eqb_spec (sequence s) 4095); [lia |].
  destruct (Z.eqb_spec (sequence s + 1) 0); [lia |].
  rewrite assemble_store, assemble_succ by lia. reflexivity.
Qed.

(** X2. While the clock stays in the millisecond of the last timestamp and
    the sequence has room, successive calls return consecutive integers:
    the [i]-th of [n] calls returns the identifier of the last timestamp and
    sequence plus [i].  No call waits, each reads the clock once (NextID,
    lines 82-83 and 101-104). *)
Theorem NextIDs_consecutive (fuel : nat) (clock : nat -> Z) (zone : Z) :
  forall (n : nat) (s : SnowFlake) (t : nat),
    inv s ->
    (forall j : nat, (t <= j < t + n)%nat ->
       millis (clock j) = lastTimestamp s) ->
    sequence s + Z.of_nat n <= 4095 ->
    NextIDs fuel clock zone n s t
    = map (fun i => assemble s (lastTimestamp s) (sequence s) + Z.of_nat i)
          (seq 1 n).
Proof.
  induction n as [| n IH]; intros s t Hs Hclock Hroom; [reflexivity |].
  cbn [NextIDs].
  rewrite NextID_same_millisecond; [| exact Hs | apply Hclock; lia | lia].
  cbn [seq map]. f_equal.
  destruct Hs as (Hd & Hw & Hq).
  rewrite IH.
  - cbn [store lastTimestamp sequence]. rewrite assemble_store.
    rewrite assemble_succ by lia.
    rewrite <- (seq_shift n 1), map_map. apply map_ext. intros i. lia.
  - unfold inv. cbn [store dataCenterID workerID sequence]. lia.
  - intros j Hj. cbn [store lastTimestamp]. apply Hclock. lia.
  - cbn [store sequence]. lia.
Qed.

(** After a first call at 2026-10-31 the clock stays in that millisecond for
    two more calls. *)
Lemma NextIDs_consecutive_witness :
  NextIDs 0 Sample.clock 0 2 (store Sample.gen 0 1793404800000) 1
  = [109803523277221888 + 1; 109803523277221888 + 2].
Proof.
  apply (NextIDs_consecutive 0 Sample.clock 0 2
           (store Sample.gen 0 1793404800000) 1).
  - by_computation.
  - intros j Hj. destruct j as [| [| [| j]]]; [lia | reflexivity ..| lia].
  - by_computation.
Defined.

(** ** What a call changes and how long it takes *)

Lemma NextID_new_millisecond (fuel : nat) (clock : nat -> Z) (zone : Z)
    (s : SnowFlake) (t : nat) :
  lastTimestamp s < millis (clock t) ->
  NextID fuel clock zone s t
  = (Returned (assemble s (millis (clock t)) 0),
     store s 0 (millis (clock t)), S t).
Proof.
  intros H. rewrite NextID_not_backwards by lia. unfold locked.
  destruct (Z.eqb_spec (millis (clock t)) (lastTimestamp s)); [lia |].
  reflexivity.
Qed.

Lemma NextID_not_Returned (fuel : nat) (clock : nat -> Z) (zone : Z)
    (s : SnowFlake) (t : nat) (o : outcome) (s' : SnowFlake) (t' : nat) :
  NextID fuel clock zone s t = (o, s', t') ->
  (forall id : int64, o <> Returned id) -> s' = s /\ t' = S t.
Proof.
  unfold NextID. rewrite readAndCheck_eq.
  destruct (millis (clock t) <? lastTimestamp s).
  - intros H _. injection H as _ <- <-. auto.
  - destruct (locked fuel clock zone s (millis (clock t)) (S t))
      as [[[[s1 ms1] q1] t1] |].
    + intros H Hno. injection H as <- _ _. exfalso. eapply Hno. reflexivity.
    + intros H _. injection H as _ <- <-. auto.
Qed.

(** X3. However a call of [NextID] ends, it leaves the group id, the worker
    id and the epoch as they were, it never moves the last timestamp back,
    and it has read the clock at least once (NextID, lines 72-105). *)
Theorem NextID_frame (fuel : nat) (clock : nat -> Z) (zone : Z)
    (s : SnowFlake) (t : nat) (o : outcome) (s' : SnowFlake) (t' : nat) :
  NextID fuel clock zone s t = (o, s', t') ->
  dataCenterID s' = dataCenterID s /\ workerID s' = workerID s /\
  startTime s' = startTime s /\
  lastTimestamp s <= lastTimestamp s' /\ (t < t')%nat.
Proof.
  intros H. destruct o as [id | msg |].
  - apply NextID_Returned in H. destruct H as [Hi _].
    apply issues_facts in Hi.
    destruct Hi as (Ed & Ew & Es & _ & Hl & j & Hj & _).
    repeat split; try assumption; lia.
  - apply NextID_not_Returned in H; [| discriminate].
    destruct H as [-> ->]. repeat split; lia.
  - apply NextID_not_Returned in H; [| discriminate].
    destruct H as [-> ->]. repeat split; lia.
Qed.

Lemma NextID_frame_witness :
  lastTimestamp Sample.gen <= 1793404800000 /\ (0 < 1)%nat.
Proof.
  destruct (NextID_frame 0 Sample.clock 0 Sample.gen 0
              (Returned 109803523277221888)
              (store Sample.gen 0 1793404800000) 1 eq_refl)
    as (_ & _ & _ & Hl & Ht).
  split; [exact Hl | exact Ht].
Defined.

(** X4. A call polls the clock a second time only when the 4096 sequence
    numbers of the current millisecond are used up.  In every other state
    the call ends after one clock reading, with any fuel, and it ends by
    returning or by the backward-clock panic (NextID, lines 82-93). *)
Theorem NextID_waits_only_when_exhausted (fuel : nat) (clock : nat -> Z)
    (zone : Z) (s : SnowFlake) (t : nat) :
  inv s ->
  ~ (sequence s = 4095 /\ millis (clock t) = lastTimestamp s) ->
  exists (o : outcome) (s' : SnowFlake),
    NextID fuel clock zone s t = (o, s', S t) /\ o <> Spinning.
Proof.
  intros Hs Hne.
  destruct (Z.lt_total (millis (clock t)) (lastTimestamp s)) as [L | [E | G]].
  - rewrite NextID_backwards by exact L.
    eexists _, _. split; [reflexivity | discriminate].
  - rewrite NextID_same_millisecond; [| exact Hs | exact E |].
    + eexists _, _. split; [reflexivity | discriminate].
    + destruct Hs as (_ & _ & Hq).
      destruct (Z.eq_dec (sequence s) 4095) as [Q | Q]; [| lia].
      exfalso. apply Hne. split; assumption.
  - rewrite NextID_new_millisecond by exact G.
    eexists _, _. split; [reflexivity | discriminate].
Qed.

Lemma NextID_waits_only_when_exhausted_witness :
  exists (o : outcome) (s' : SnowFlake),
    NextID 0 Sample.clock 0 (store Sample.gen 4094 1793404800000) 0
    = (o, s', 1%nat) /\ o <> Spinning.
Proof.
  apply (NextID_waits_only_when_exhausted 0 Sample.clock 0
           (store Sample.gen 4094 1793404800000) 0).
  - by_computation.
  - intros [Q _]. revert Q. by_computation.
Defined.

(** ** Decoding the timestamp *)

(** X5. Within the 41-bit range, an identifier shifted right by 22, plus
    the epoch in milliseconds, is the last timestamp the call stored, and
    that is a clock reading made during the call (NextID, lines 94-101). *)
Theorem NextID_timestamp_roundtrip (fuel : nat) (clock : nat -> Z) (zone : Z)
    (s : SnowFlake) (t : nat) (id : int64) (s' : SnowFlake) (t' : nat) :
  inv s ->
  NextID fuel clock zone s t = (Returned id, s', t') ->
  fits41 (lastTimestamp s' - startMillis s) ->
  Z.shiftr id 22 + startMillis s = lastTimestamp s' /\
  exists j : nat, (t <= j < t')%nat /\ lastTimestamp s' = millis (clock j).
Proof.
  intros Hs H Hfit.
  destruct (NextID_fields _ _ _ _ _ _ _ _ Hs H) as (_ & E).
  apply NextID_Returned in H. destruct H as [Hi _].
  apply issues_facts in Hi. destruct Hi as (_ & _ & _ & _ & _ & j & Hj & Ej).
  split; [| exists j; split; assumption].
  rewrite E, elapsed_fits by exact Hfit. lia.
Qed.

Lemma NextID_timestamp_roundtrip_witness :
  Z.shiftr 109803523277221888 22 + startMillis Sample.gen = 1793404800000.
Proof.
  destruct (NextID_timestamp_roundtrip 0 Sample.clock 0 Sample.gen 0
              109803523277221888 (store Sample.gen 0 1793404800000) 1
              Sample_gen_inv eq_refl) as [E _].
  - by_computation.
  - exact E.
Defined.

(** X6. Within the 41-bit range an identifier is negative exactly when the
    elapsed time is, that is when the last timestamp is before the epoch
    (NextID, lines 99-104). *)
Theorem NextID_sign (fuel : nat) (clock : nat -> Z) (zone : Z)
    (s : SnowFlake) (t : nat) (id : int64) (s' : SnowFlake) (t' : nat) :
  inv s ->
  NextID fuel clock zone s t = (Returned id, s', t') ->
  fits41 (lastTimestamp s' - startMillis s) ->
  (id < 0 <-> lastTimestamp s' < startMillis s).
Proof.
  intros Hs H Hfit. pose proof (NextID_inv _ _ _ _ _ _ _ _ Hs H) as Hs'.
  apply NextID_Returned in H. destruct H as [Hi ->].
  apply issues_facts in Hi. destruct Hi as (_ & _ & Est & _).
  assert (Em : startMillis s' = startMillis s)
    by (unfold startMillis; rewrite Est; reflexivity).
  rewrite assemble_rank; [| exact Hs' | rewrite Em; exact Hfit].
  unfold rank. rewrite Em. destruct Hs' as (Hd & Hw & Hq). lia.
Qed.

(** ** Order of identifiers across generators *)

(** X7. Identifiers are ordered by time across generators: for two
    generators with the same epoch, whatever their identities, a call that
    stored the later timestamp returned the greater identifier, both
    timestamps being within the 41-bit range (NextID, lines 99-104). *)
Theorem NextID_time_ordered
    (fuel1 fuel2 : nat) (clock1 clock2 : nat -> Z) (zone1 zone2 : Z)
    (s1 s2 : SnowFlake) (t1 t2 : nat) (id1 id2 : int64)
    (s1' s2' : SnowFlake) (t1' t2' : nat) :
  inv s1 -> inv s2 -> startMillis s1 = startMillis s2 ->
  NextID fuel1 clock1 zone1 s1 t1 = (Returned id1, s1', t1') ->
  NextID fuel2 clock2 zone2 s2 t2 = (Returned id2, s2', t2') ->
  fits41 (lastTimestamp s1' - startMillis s1) ->
  fits41 (lastTimestamp s2' - startMillis s2) ->
  lastTimestamp s1' < lastTimestamp s2' ->
  id1 < id2.
Proof.
  intros H1 H2 Eep E1 E2 F1 F2 Hlt.
  pose proof (NextID_inv _ _ _ _ _ _ _ _ H1 E1) as H1'.
  pose proof (NextID_inv _ _ _ _ _ _ _ _ H2 E2) as H2'.
  apply NextID_Returned in E1. destruct E1 as [I1 ->].
  apply NextID_Returned in E2. destruct E2 as [I2 ->].
  apply issues_facts in I1. destruct I1 as (_ & _ & Est1 & _).
  apply issues_facts in I2. destruct I2 as (_ & _ & Est2 & _).
  assert (Em1 : startMillis s1' = startMillis s1)
    by (unfold startMillis; rewrite Est1; reflexivity).
  assert (Em2 : startMillis s2' = startMillis s2)
    by (unfold startMillis; rewrite Est2; reflexivity).
  rewrite !assemble_rank;
    [| exact H2' | rewrite Em2; exact F2 | exact H1' | rewrite Em1; exact F1].
  unfold rank. rewrite Em1, Em2, Eep.
  destruct H1' as (? & ? & ?). destruct H2' as (? & ? & ?). lia.
Qed.

(** The generator made by [New] in zone UTC+8 (epoch five hours ahead)
    returns a negative identifier. *)
Lemma NextID_sign_witness :
  -75497472000000 < 0 <->
  1793386800000
  < startMillis (fst (New (fun _ => Sample.evening) Sample.utcPlus8
                          Sample.noAddrs 0)).
Proof.
  apply (NextID_sign 0 (fun _ => Sample.evening) Sample.utcPlus8
           (fst (New (fun _ => Sample.evening) Sample.utcPlus8
                     Sample.noAddrs 0)) 1
           (-75497472000000)
           (store (fst (New (fun _ => Sample.evening) Sample.utcPlus8
                            Sample.noAddrs 0)) 0 1793386800000) 2).
  - apply New_inv.
  - reflexivity.
  - by_computation.
Defined.

(** Worker 7 at one millisecond, worker 8 of another group at the next. *)
Lemma NextID_time_ordered_witness :
  109803523277221888 < 109803523282337792.
Proof.
  apply (NextID_time_ordered 0 0 Sample.clock Sample.clock 0 0
           Sample.gen
           (NewWith Sample.noAddrs (time.mkTime 1767225600000000000 0) [10; 8])
           0 3 109803523277221888 109803523282337792
           (store Sample.gen 0 1793404800000)
           (store (NewWith Sample.noAddrs
                     (time.mkTime 1767225600000000000 0) [10; 8])
                  0 1793404800001) 1 4).
  - apply NewWith_inv.
  - apply NewWith_inv.
  - reflexivity.
  - reflexivity.
  - reflexivity.
  - by_computation.
  - by_computation.
  - by_computation.
Defined.

(** ** Time zones *)

Lemma busyWait_zone (clock : nat -> Z) (z1 z2 last : Z) :
  forall (fuel : nat) (ms : Z) (t : nat),
    busyWait fuel clock z1 last ms t = busyWait fuel clock z2 last ms t.
Proof.
  induction fuel as [| fuel IH]; intros ms t; cbn [busyWait];
    [reflexivity |].
  destruct (ms <=? last); [| reflexivity].
  rewrite !genMillisecond_eq. apply IH.
Qed.

Lemma NextID_zone (fuel : nat) (clock : nat -> Z) (z1 z2 : Z)
    (s : SnowFlake) (t : nat) :
  NextID fuel clock z1 s t = NextID fuel clock z2 s t.
Proof.
  unfold NextID. rewrite !readAndCheck_eq.
  destruct (millis (clock t) <? lastTimestamp s); [reflexivity |].
  unfold locked.
  rewrite (busyWait_zone clock z1 z2). reflexivity.
Qed.

(** X8. The identifiers do not depend on time zones: neither on the local
    zone of the host, in which [time.Now] reports, nor on the zone the epoch
    was given in; a call, a series of calls and the generator built by
    [NewWith] are the same for every zone (NextID, lines 73-74 and 99;
    genMillisecond, line 135; NewWith, line 58). *)
Theorem NextID_zone_independent (fuel : nat) (clock : nat -> Z) (z1 z2 : Z) :
  (forall (s : SnowFlake) (t : nat),
      NextID fuel clock z1 s t = NextID fuel clock z2 s t) /\
  (forall (n : nat) (s : SnowFlake) (t : nat),
      NextIDs fuel clock z1 n s t = NextIDs fuel clock z2 n s t) /\
  (forall (ifaddrs : net.lookup) (ns : int64) (ids : list uint8),
      NewWith ifaddrs (time.mkTime ns z1) ids
      = NewWith ifaddrs (time.mkTime ns z2) ids).
Proof.
  split; [intros s t; apply NextID_zone | split; [| reflexivity]].
  induction n as [| n IH]; intros s t; cbn [NextIDs]; [reflexivity |].
  rewrite (NextID_zone fuel clock z1 z2).
  destruct (NextID fuel clock z2 s t) as [[[id | msg |] s'] t'];
    [| reflexivity | reflexivity].
  rewrite IH. reflexivity.
Qed.

(** ** The identity a generator gets *)

Lemma land_31_mod (a : Z) : Z.land a 31 = a mod 32.
Proof. change 31 with (Z.ones 5). rewrite Z.land_ones by lia. reflexivity. Qed.

(** X9. The identity fields hold the supplied values modulo 32: a value in
    [0, 31] is kept as it is, and two values give the same field exactly
    when they differ by a multiple of 32 (NewWith, lines 57-61). *)
Theorem NewWith_identity_mod32 (ifaddrs : net.lookup) (st : time.Time) :
  (forall (a b : uint8) (rest : list uint8),
      dataCenterID (NewWith ifaddrs st (a :: b :: rest)) = a mod 32 /\
      workerID (NewWith ifaddrs st (a :: b :: rest)) = b mod 32) /\
  (forall (a b : uint8) (rest : list uint8),
      0 <= a <= 31 -> 0 <= b <= 31 ->
      dataCenterID (NewWith ifaddrs st (a :: b :: rest)) = a /\
      workerID (NewWith ifaddrs st (a :: b :: rest)) = b) /\
  (forall a a' : uint8,
      NewWith ifaddrs st [a] = NewWith ifaddrs st [a'] <->
      a mod 32 = a' mod 32).
Proof.
  split; [| split].
  - intros a b rest. cbn. rewrite !land_31_mod. auto.
  - intros a b rest Ha Hb. cbn. rewrite !land_31_mod, !Z.mod_small by lia.
    auto.
  - intros a a'. unfold NewWith. unfold dataCenterMask, workerMask.
    change (Z.shiftl 1 5 - 1) with 31. rewrite !land_31_mod. split.
    + intros H. injection H as H _. exact H.
    + intros ->. reflexivity.
Qed.

Lemma NewWith_identity_mod32_witness :
  dataCenterID (NewWith Sample.noAddrs (time.mkTime 0 0) [3; 7]) = 3 /\
  workerID (NewWith Sample.noAddrs (time.mkTime 0 0) [3; 7]) = 7.
Proof.
  destruct (NewWith_identity_mod32 Sample.noAddrs (time.mkTime 0 0))
    as (_ & Hkeep & _).
  apply (Hkeep 3 7 []); lia.
Defined.

(** X10. On a host whose first non-loopback IPv4 address has third and
    fourth octets [o3] and [o4], [New] and [NewWith] without identity values
    both give the group id [o3 mod 32] and the worker id [o4 mod 32]; when
    the lookup fails or there is no such address both give (0, 0).  So two
    hosts whose octets differ by multiples of 32 get the same identity
    (New, lines 67-68; NewWith, lines 54-60; machineID). *)
Theorem default_identity (clock : nat -> Z) (zone : Z) (st : time.Time)
    (t : nat) :
  (forall (pre post : list net.Addr) (a : net.Addr) (o1 o2 o3 o4 : uint8),
      Forall (fun x => net.nonLoopbackIPv4 x = None) pre ->
      net.nonLoopbackIPv4 a = Some [o1; o2; o3; o4] ->
      let host := net.Addrs (pre ++ a :: post) in
      dataCenterID (fst (New clock zone host t)) = o3 mod 32 /\
      workerID (fst (New clock zone host t)) = o4 mod 32 /\
      dataCenterID (NewWith host st []) = o3 mod 32 /\
      workerID (NewWith host st []) = o4 mod 32) /\
  (forall host : net.lookup,
      machineID host = (0, 0) ->
      dataCenterID (fst (New clock zone host t)) = 0 /\
      workerID (fst (New clock zone host t)) = 0 /\
      dataCenterID (NewWith host st []) = 0 /\
      workerID (NewWith host st []) = 0).
Proof.
  split.
  - intros pre post a o1 o2 o3 o4 Hpre Ha host.
    assert (E : machineID host = (o3, o4)).
    { unfold host. cbn [machineID].
      rewrite machineID_range_skip by exact Hpre.
      cbn [machineID_range]. destruct a as [ip m | n]; [| discriminate].
      cbn in Ha. destruct (net.IsLoopback ip); [discriminate |].
      rewrite Ha. reflexivity. }
    unfold New, NewWith. cbn [time.Now]. rewrite E.
    cbn [fst dataCenterID workerID].
    unfold dataCenterMask, workerMask. change (Z.shiftl 1 5 - 1) with 31.
    rewrite !land_31_mod. auto.
  - intros host E. unfold New, NewWith. cbn [time.Now]. rewrite E.
    cbn [fst dataCenterID workerID]. auto.
Qed.

Lemma default_identity_witness :
  let host := net.Addrs ([net.IPNet [127; 0; 0; 1] [255; 0; 0; 0]]
                         ++ net.IPNet [10; 1; 200; 77] [255; 0; 0; 0] :: []) in
  dataCenterID (fst (New Sample.clock 0 host 0)) = 200 mod 32 /\
  workerID (fst (New Sample.clock 0 host 0)) = 77 mod 32 /\
  dataCenterID (NewWith host (time.mkTime 0 0) []) = 200 mod 32 /\
  workerID (NewWith host (time.mkTime 0 0) []) = 77 mod 32.
Proof.
  destruct (default_identity Sample.clock 0 (time.mkTime 0 0) 0)
    as [Hfirst _].
  apply (Hfirst [net.IPNet [127; 0; 0; 1] [255; 0; 0; 0]] []
                (net.IPNet [10; 1; 200; 77] [255; 0; 0; 0]) 10 1 200 77).
  - repeat constructor.
  - reflexivity.
Defined.

(** ** One call per millisecond *)

(** X11. When every call finds the clock in a later millisecond than the
    last timestamp, no call waits or panics: each reads the clock once and
    returns the identifier of its reading with sequence 0 (NextID, lines
    90-95). *)
Theorem NextIDs_spaced (fuel : nat) (clock : nat -> Z) (zone : Z) :
  forall (n : nat) (s : SnowFlake) (t : nat),
    lastTimestamp s < millis (clock t) ->
    (forall j : nat, (t <= j)%nat -> (S j < t + n)%nat ->
       millis (clock j) < millis (clock (S j))) ->
    NextIDs fuel clock zone n s t
    = map (fun j => assemble s (millis (clock j)) 0) (seq t n).
Proof.
  induction n as [| n IH]; intros s t Hlt Hclock; [reflexivity |].
  cbn [NextIDs]. rewrite NextID_new_millisecond by exact Hlt.
  cbn [seq map]. f_equal.
  destruct n as [| n]; [reflexivity |].
  rewrite IH.
  - apply map_ext. intros j. apply assemble_store.
  - cbn [store lastTimestamp]. apply Hclock; lia.
  - intros j Hj1 Hj2. apply Hclock; lia.
Qed.

(** Readings 1.2 ms apart. *)
Lemma NextIDs_spaced_witness :
  NextIDs 0 (Sample.trace [Sample.oct31; Sample.oct31 + 1200000]
                          (Sample.oct31 + 2400000)) 0 3 Sample.gen 0
  = [109803523277221888; 109803523281416192; 109803523285610496].
Proof.
  apply (NextIDs_spaced 0 (Sample.trace [Sample.oct31; Sample.oct31 + 1200000]
                                        (Sample.oct31 + 2400000))
           0 3 Sample.gen 0).
  - by_computation.
  - intros j _ Hj. destruct j as [| [| j]]; [by_computation .. | lia].
Defined.

(** ** The epoch chosen by [New], in general *)

(** X12. The epoch chosen by [New] is midnight UTC of the date shown by
    the local wall clock: a whole number of days, at most the local wall
    time and less than a day before it.  It is at or before the instant of
    construction exactly when the local time of day, in seconds, is at least
    the zone offset; so always on hosts at or west of UTC, and not during
    the first [zone] seconds of the local day on hosts east of it (New,
    lines 65-66). *)
Theorem New_epoch_local_midnight (clock : nat -> Z) (zone : Z)
    (ifaddrs : net.lookup) (t : nat) :
  let e := time.UnixNano (startTime (fst (New clock zone ifaddrs t))) in
  let localSeconds := clock t / 1000000000 + zone in
  e = localSeconds / 86400 * 86400 * 1000000000 /\
  e <= localSeconds * 1000000000 < e + 86400 * 1000000000 /\
  (e <= clock t <-> zone <= localSeconds mod 86400) /\
  (zone <= 0 -> e <= clock t).
Proof.
  intros e localSeconds.
  assert (E : e = localSeconds / 86400 * 86400 * 1000000000).
  { unfold e. rewrite New_epoch. reflexivity. }
  split; [exact E |]. rewrite E.
  assert (L : localSeconds = clock t / 1000000000 + zone) by reflexivity.
  clearbody localSeconds e.
  assert (I : localSeconds / 86400 * 86400 * 1000000000 <= clock t
              <-> zone <= localSeconds mod 86400).
  { Z.div_mod_to_equations. lia. }
  split; [Z.div_mod_to_equations; lia | split; [exact I |]].
  intros Hz. apply I.
  pose proof (Z.mod_pos_bound localSeconds 86400 ltac:(lia)). lia.
Qed.

(** A host in zone UTC-5 at 2026-10-30T19:00:00Z: the epoch is the start of
    2026-10-30. *)
Lemma New_epoch_local_midnight_witness :
  time.UnixNano
    (startTime (fst (New (fun _ => Sample.evening) (-18000) Sample.noAddrs 0)))
  <= Sample.evening.
Proof.
  destruct (New_epoch_local_midnight (fun _ => Sample.evening) (-18000)
              Sample.noAddrs 0) as (_ & _ & _ & Hwest).
  apply Hwest. lia.
Defined.

(** ** The first identifier after [New] *)

Lemma New_fresh (clock : nat -> Z) (zone : Z) (ifaddrs : net.lookup)
    (t : nat) :
  lastTimestamp (fst (New clock zone ifaddrs t)) = 0 /\
  sequence (fst (New clock zone ifaddrs t)) = 0 /\
  snd (New clock zone ifaddrs t) = S t.
Proof.
  unfold New. cbn [time.Now]. destruct (machineID ifaddrs) as [d w].
  repeat split.
Qed.

Lemma assemble_nonneg (s : SnowFlake) (ms q : Z) :
  0 <= dataCenterID s <= 31 -> 0 <= workerID s <= 31 -> 0 <= q <= 4095 ->
  0 <= ms - startMillis s < 2 ^ 41 ->
  0 <= assemble s ms q.
Proof.
  intros Hd Hw Hq He. rewrite assemble_sum by assumption.
  rewrite elapsed_fits by (unfold fits41; lia). lia.
Qed.

(** X13. On a host at or west of UTC (zone offset between -86400 and 0
    seconds), the first call of [NextID] on the generator made by [New]
    returns at once and its identifier is not negative, provided the clock
    is past 1970, has not gone back since [New] read it and has advanced by
    less than 2^40 milliseconds (New, lines 64-69; NextID). *)
Theorem New_then_NextID_nonnegative (fuel : nat) (clock : nat -> Z)
    (zone : Z) (ifaddrs : net.lookup) (t : nat) :
  -86400 <= zone <= 0 ->
  0 <= clock t <= clock (S t) ->
  clock (S t) < 2 ^ 63 ->
  clock (S t) - clock t < 2 ^ 40 * 1000000 ->
  exists (id : int64) (s' : SnowFlake),
    NextID fuel clock zone (fst (New clock zone ifaddrs t)) (S t)
    = (Returned id, s', S (S t)) /\ 0 <= id.
Proof.
  intros Hz Hc Hmax Hgap.
  set (s := fst (New clock zone ifaddrs t)).
  pose proof (New_inv clock zone ifaddrs t) as Hs. fold s in Hs.
  destruct (New_fresh clock zone ifaddrs t) as (El & Eq & _).
  fold s in El, Eq.
  pose proof (New_epoch clock zone ifaddrs t) as Ee. fold s in Ee.
  unfold time.localDays in Ee. cbn [time.unixNano time.zoneOffset] in Ee.
  set (D := (clock t / 1000000000 + zone) / 86400) in Ee.
  assert (HD : -2 <= D <= 110000).
  { unfold D. change (2 ^ 63) with 9223372036854775808 in Hmax.
    Z.div_mod_to_equations. lia. }
  assert (Esm : startMillis s = D * 86400000).
  { unfold startMillis. rewrite Ee. unfold div64.
    replace (D * 86400 * 1000000000) with (D * 86400000 * 1000000) by lia.
    rewrite Z.quot_mul by lia.
    apply wrap64_small. unfold in_int64.
    change (2 ^ 63) with 9223372036854775808. lia. }
  assert (Ems : millis (clock (S t)) = clock (S t) / 1000000).
  { unfold millis, div64. rewrite Z.quot_div_nonneg by lia.
    apply wrap64_small. unfold in_int64.
    change (2 ^ 63) with 9223372036854775808 in *.
    Z.div_mod_to_equations. lia. }
  assert (Hel : 0 <= millis (clock (S t)) - startMillis s < 2 ^ 41).
  { rewrite Ems, Esm. unfold D.
    change (2 ^ 40) with 1099511627776 in Hgap.
    change (2 ^ 41) with 2199023255552.
    Z.div_mod_to_equations. lia. }
  destruct Hs as (Hd & Hw & Hq).
  destruct (Z.eq_dec (millis (clock (S t))) 0) as [Z0 | NZ].
  - rewrite NextID_same_millisecond;
      [| unfold inv; auto | rewrite El; exact Z0 | lia].
    eexists _, _. split; [reflexivity |].
    rewrite El, Eq. rewrite Z0 in Hel.
    pose proof (assemble_nonneg s 0 0 Hd Hw ltac:(lia) Hel). lia.
  - rewrite NextID_new_millisecond.
    + eexists _, _. split; [reflexivity |].
      apply assemble_nonneg; try assumption. lia.
    + rewrite El, Ems in *.
      change (2 ^ 63) with 9223372036854775808 in *.
      assert (0 <= clock (S t) / 1000000)
        by (Z.div_mod_to_equations; lia).
      lia.
Qed.

(** A host in zone UTC-5 at 2026-10-30T19:00:00Z; the first call comes 0.3
    ms after [New]. *)
Lemma New_then_NextID_nonnegative_witness :
  exists (id : int64) (s' : SnowFlake),
    NextID 0 (Sample.trace [Sample.evening] (Sample.evening + 300000))
      (-18000)
      (fst (New (Sample.trace [Sample.evening] (Sample.evening + 300000))
                (-18000) Sample.noAddrs 0)) 1
    = (Returned id, s', 2%nat) /\ 0 <= id.
Proof.
  apply (New_then_NextID_nonnegative 0
           (Sample.trace [Sample.evening] (Sample.evening + 300000))
           (-18000) Sample.noAddrs 0).
  - lia.
  - by_computation.
  - by_computation.
  - by_computation.
Defined.

(** ** What holds under every interleaving *)

Lemma locked_store (fuel : nat) (clock : nat -> Z) (zone : Z)
    (s : SnowFlake) (ms : Z) (t : nat)
    (s' : SnowFlake) (ms' q : Z) (t' : nat) :
  locked fuel clock zone s ms t = Some (s', ms', q, t') ->
  s' = store s q ms' /\ 0 <= q <= 4095.
Proof.
  unfold locked. destruct (ms =? lastTimestamp s).
  - destruct (Z.land (add16 (sequence s) 1) sequenceMask =? 0) eqn:W.
    + destruct (busyWait fuel clock zone (lastTimestamp s) ms t)
        as [[m1 t1] |]; [| discriminate].
      intros H. injection H as <- <- <- <-.
      split; [reflexivity | apply sequence_in_range].
    + intros H. injection H as <- <- <- <-.
      split; [reflexivity | apply sequence_in_range].
  - intros H. injection H as <- <- <- <-. split; [reflexivity | lia].
Qed.

Lemma assemble_carries (s : SnowFlake) (ms q : Z) :
  inv s -> 0 <= q <= 4095 -> carriesIdentity s (assemble s ms q).
Proof.
  intros (Hd & Hw & _) Hq. rewrite assemble_sum by assumption.
  destruct (layout_fields (wrap 42 (elapsed s ms)) (dataCenterID s)
              (workerID s) q Hd Hw Hq) as (_ & F2 & F3 & _).
  split; assumption.
Qed.

Lemma Forall_setNth {A : Type} (P : A -> Prop) (x : A) :
  forall (l : list A) (i : nat),
    Forall P l -> P x -> Forall P (Concurrent.setNth i x l).
Proof.
  induction l as [| a l IH]; intros i Hl Hx; [destruct i; constructor |].
  inversion Hl as [| ? ? Ha Hl']; subst.
  destruct i as [| i]; cbn; constructor; auto.
Qed.

Lemma length_setNth {A : Type} (x : A) :
  forall (l : list A) (i : nat),
    List.length (Concurrent.setNth i x l) = List.length l.
Proof.
  induction l as [| a l IH]; intros [| i]; cbn; try reflexivity.
  rewrite IH. reflexivity.
Qed.

Lemma store_inv (s : SnowFlake) (q ms : Z) :
  inv s -> 0 <= q <= 4095 -> inv (store s q ms).
Proof. intros (Hd & Hw & _) Hq. unfold inv. cbn [store]. auto. Qed.

Lemma advance_kept (fuel : nat) (clock : nat -> Z) (zone : Z) (i : nat)
    (sys : Concurrent.system) :
  inv (Concurrent.shared sys) ->
  poolCarries (Concurrent.shared sys) (Concurrent.pool sys) ->
  kept sys (Concurrent.advance fuel clock zone i sys).
Proof.
  intros Hs Hp. unfold kept, Concurrent.advance.
  destruct (nth_error (Concurrent.pool sys) i) as [[| ms | o] |].
  - destruct (readAndCheck clock zone (Concurrent.shared sys)
                (Concurrent.readings sys)) as [[ms | msg] t1];
      cbn [Concurrent.shared Concurrent.pool];
      (split; [exact Hs | do 3 (split; [reflexivity |]); split];
       [apply length_setNth | apply Forall_setNth; [exact Hp | exact I]]).
  - destruct (locked fuel clock zone (Concurrent.shared sys) ms
                (Concurrent.readings sys)) as [[[[s' ms'] q] t'] |] eqn:L.
    + apply locked_store in L. destruct L as [-> Hq].
      cbn [Concurrent.shared Concurrent.pool].
      split; [apply store_inv; assumption |].
      do 3 (split; [reflexivity |]). split.
      * apply length_setNth.
      * apply Forall_setNth; [exact Hp |].
        rewrite assemble_store. apply assemble_carries; assumption.
    + cbn [Concurrent.shared Concurrent.pool].
      split; [exact Hs | do 3 (split; [reflexivity |]); split];
        [apply length_setNth | apply Forall_setNth; [exact Hp | exact I]].
  - split; [exact Hs | do 3 (split; [reflexivity |]); split];
      [reflexivity | exact Hp].
  - split; [exact Hs | do 3 (split; [reflexivity |]); split];
      [reflexivity | exact Hp].
Qed.

Lemma poolCarries_returned (s : SnowFlake) (sys : Concurrent.system) :
  poolCarries s (Concurrent.pool sys) ->
  Forall (carriesIdentity s) (Concurrent.returned sys).
Proof.
  unfold poolCarries, Concurrent.returned.
  induction 1 as [| g l Hg _ IH]; [constructor |].
  cbn [flat_map]. destruct g as [| ms | [id | msg |]]; cbn [app]; auto.
Qed.

Lemma run_kept_all (fuel : nat) (clock : nat -> Z) (zone : Z) :
  forall (schedule : list nat) (sys : Concurrent.system),
    inv (Concurrent.shared sys) ->
    poolCarries (Concurrent.shared sys) (Concurrent.pool sys) ->
    kept sys (Concurrent.run fuel clock zone schedule sys).
Proof.
  induction schedule as [| i schedule IH]; intros sys Hs Hp.
  - unfold kept. cbn [Concurrent.run fold_left].
    split; [exact Hs | do 3 (split; [reflexivity |]); split];
      [reflexivity | exact Hp].
  - unfold Concurrent.run. cbn [fold_left].
    fold (Concurrent.run fuel clock zone schedule
            (Concurrent.advance fuel clock zone i sys)).
    destruct (advance_kept fuel clock zone i sys Hs Hp)
      as (Hs1 & Ed1 & Ew1 & Et1 & El1 & Hp1).
    assert (Hp1' : poolCarries
                     (Concurrent.shared
                        (Concurrent.advance fuel clock zone i sys))
                     (Concurrent.pool
                        (Concurrent.advance fuel clock zone i sys))).
    { unfold poolCarries, carriesIdentity in *. rewrite Ed1, Ew1.
      exact Hp1. }
    destruct (IH _ Hs1 Hp1') as (Hs2 & Ed2 & Ew2 & Et2 & El2 & Hp2).
    unfold kept.
    split; [exact Hs2 | do 4 (split; [congruence |])].
    unfold poolCarries, carriesIdentity in *. rewrite <- Ed1, <- Ew1.
    exact Hp2.
Qed.

Lemma run_returned_carry (fuel : nat) (clock : nat -> Z) (zone : Z)
    (schedule : list nat) (sys : Concurrent.system) :
  inv (Concurrent.shared sys) ->
  poolCarries (Concurrent.shared sys) (Concurrent.pool sys) ->
  Forall (carriesIdentity (Concurrent.shared sys))
         (Concurrent.returned (Concurrent.run fuel clock zone schedule sys)).
Proof.
  intros Hs Hp. apply poolCarries_returned.
  destruct (run_kept_all fuel clock zone schedule sys Hs Hp)
    as (_ & _ & _ & _ & _ & Hp').
  exact Hp'.
Qed.

(** X14. Whatever the schedule of the goroutines, the shared generator
    stays within its invariant, its group id, worker id and epoch never
    change, no goroutine appears or disappears, and every identifier that a
    goroutine has returned carries the group id and the worker id of the
    generator in its bits 17-21 and 12-16 (NextID, lines 79-104, run by
    several goroutines as in TestNextID). *)
Theorem run_kept (fuel : nat) (clock : nat -> Z) (zone : Z)
    (schedule : list nat) (sys : Concurrent.system) :
  inv (Concurrent.shared sys) ->
  poolCarries (Concurrent.shared sys) (Concurrent.pool sys) ->
  kept sys (Concurrent.run fuel clock zone schedule sys) /\
  Forall (carriesIdentity (Concurrent.shared sys))
         (Concurrent.returned (Concurrent.run fuel clock zone schedule sys)).
Proof.
  intros Hs Hp. split.
  - apply run_kept_all; assumption.
  - apply run_returned_carry; assumption.
Qed.

(** The schedule in which goroutine 0 is overtaken between its check and
    its critical section. *)
Lemma run_kept_witness :
  Forall (carriesIdentity Sample.gen)
    (Concurrent.returned
       (Concurrent.run 0 Sample.clock 0 [2; 2; 0; 1; 1; 0]%nat
          (Concurrent.mkSystem Sample.gen 0
             [Concurrent.AtEntry; Concurrent.AtEntry; Concurrent.AtEntry]))).
Proof.
  apply (run_kept 0 Sample.clock 0 [2; 2; 0; 1; 1; 0]%nat
           (Concurrent.mkSystem Sample.gen 0
              [Concurrent.AtEntry; Concurrent.AtEntry; Concurrent.AtEntry])).
  - apply NewWith_inv.
  - repeat constructor.
Defined.

(** X15. Two generators with different (group id, worker id) pairs, each
    shared by goroutines under any schedule and any clock, never return a
    common identifier (NextID, lines 99-104). *)
Theorem run_identity_disjoint
    (fuel1 fuel2 : nat) (clock1 clock2 : nat -> Z) (zone1 zone2 : Z)
    (schedule1 schedule2 : list nat) (sys1 sys2 : Concurrent.system)
    (id : int64) :
  inv (Concurrent.shared sys1) -> inv (Concurrent.shared sys2) ->
  poolCarries (Concurrent.shared sys1) (Concurrent.pool sys1) ->
  poolCarries (Concurrent.shared sys2) (Concurrent.pool sys2) ->
  (dataCenterID (Concurrent.shared sys1), workerID (Concurrent.shared sys1))
  <> (dataCenterID (Concurrent.shared sys2),
      workerID (Concurrent.shared sys2)) ->
  In id (Concurrent.returned
           (Concurrent.run fuel1 clock1 zone1 schedule1 sys1)) ->
  ~ In id (Concurrent.returned
             (Concurrent.run fuel2 clock2 zone2 schedule2 sys2)).
Proof.
  intros H1 H2 P1 P2 Hne I1 I2.
  pose proof (run_returned_carry fuel1 clock1 zone1 schedule1 sys1 H1 P1)
    as F1.
  pose proof (run_returned_carry fuel2 clock2 zone2 schedule2 sys2 H2 P2)
    as F2.
  rewrite Forall_forall in F1, F2.
  destruct (F1 id I1) as [W1 D1]. destruct (F2 id I2) as [W2 D2].
  apply Hne. rewrite <- W1, <- D1, <- W2, <- D2. reflexivity.
Qed.

(** Workers 7 and 8, three goroutines each. *)
Lemma run_identity_disjoint_witness :
  ~ In 109803523277221888
      (Concurrent.returned
         (Concurrent.run 0 Sample.clock 0 [0; 1; 1; 0; 2; 2]%nat
            (Concurrent.mkSystem
               (NewWith Sample.noAddrs (time.mkTime 1767225600000000000 0)
                        [3; 8]) 0
               [Concurrent.AtEntry; Concurrent.AtEntry;
                Concurrent.AtEntry]))).
Proof.
  apply (run_identity_disjoint 0 0 Sample.clock Sample.clock 0 0
           [2; 2; 0; 1; 1; 0]%nat [0; 1; 1; 0; 2; 2]%nat
           (Concurrent.mkSystem Sample.gen 0
              [Concurrent.AtEntry; Concurrent.AtEntry; Concurrent.AtEntry])).
  - apply NewWith_inv.
  - apply NewWith_inv.
  - repeat constructor.
  - repeat constructor.
  - by_computation.
  - vm_compute. auto.
Defined.

(** ** Calls that do not overlap *)



Lemma returned_AtEntry (s : SnowFlake) (t n : nat) :
  Concurrent.returned
    (Concurrent.mkSystem s t (repeat Concurrent.AtEntry n)) = [].
Proof.
  unfold Concurrent.returned. cbn.
  induction n as [| n IH]; [reflexivity | exact IH].
Qed.




(** ** At most 4096 identifiers per millisecond *)

Lemma sorted_NoDup (l : list Z) : StronglySorted Z.lt l -> NoDup l.
Proof.
  induction 1 as [| a l _ IH Ha]; constructor; [| exact IH].
  intros Hin. rewrite Forall_forall in Ha. specialize (Ha a Hin). lia.
Qed.

(** Every identifier of a series is a timestamp field above the fixed
    identity bits and a 12-bit sequence. *)
Lemma NextIDs_form (fuel : nat) (clock : nat -> Z) (zone : Z) :
  forall (n : nat) (s : SnowFlake) (t : nat),
    inv s ->
    Forall (fun id => exists e q : Z,
                0 <= q <= 4095 /\
                id = e * 2 ^ 22 + dataCenterID s * 2 ^ 17
                     + workerID s * 2 ^ 12 + q)
           (NextIDs fuel clock zone n s t).
Proof.
  induction n as [| n IH]; intros s t Hs; cbn [NextIDs]; [constructor |].
  destruct (NextID fuel clock zone s t) as [[o s'] t'] eqn:E.
  destruct o as [id | msg |]; [| constructor | constructor].
  pose proof (NextID_inv _ _ _ _ _ _ _ _ Hs E) as Hs'.
  apply NextID_Returned in E. destruct E as [Hi ->].
  apply issues_facts in Hi. destruct Hi as (Ed & Ew & _ & Hq & _).
  constructor.
  - destruct Hs' as (Hd' & Hw' & _).
    rewrite assemble_sum by assumption. rewrite Ed, Ew. eauto.
  - rewrite <- Ed, <- Ew. apply IH. exact Hs'.
Qed.

(** X17. In a sequential series of calls, at most 4096 returned
    identifiers have the same timestamp field, the clock readings being
    within 2^41 milliseconds of the epoch (NextID, lines 82-93). *)
Theorem NextIDs_capacity (fuel : nat) (clock : nat -> Z) (zone : Z)
    (n : nat) (s : SnowFlake) (t : nat) (T : Z) :
  inv s ->
  (forall j : nat, fits41 (millis (clock j) - startMillis s)) ->
  (List.length (stamped T (NextIDs fuel clock zone n s t)) <= 4096)%nat.
Proof.
  intros Hs Hfit.
  set (base := T * 2 ^ 22 + dataCenterID s * 2 ^ 17 + workerID s * 2 ^ 12).
  replace 4096%nat
    with (List.length (map (fun q => base + Z.of_nat q) (seq 0 4096)))
    by (rewrite length_map, length_seq; reflexivity).
  apply NoDup_incl_length.
  - apply NoDup_filter, sorted_NoDup.
    exact (proj2 (NextIDs_above clock zone fuel n s t Hs Hfit)).
  - intros id Hin. unfold stamped in Hin. apply filter_In in Hin.
    destruct Hin as [Hin HT]. apply Z.eqb_eq in HT.
    pose proof (NextIDs_form fuel clock zone n s t Hs) as F.
    rewrite Forall_forall in F. destruct (F id Hin) as (e & q & Hq & ->).
    destruct Hs as (Hd & Hw & _).
    destruct (layout_fields e (dataCenterID s) (workerID s) q Hd Hw Hq)
      as (_ & _ & _ & F4).
    cbv zeta in F4. rewrite F4 in HT. subst e.
    apply in_map_iff. exists (Z.to_nat q). split.
    + unfold base. rewrite Z2Nat.id by lia. lia.
    + apply in_seq. lia.
Qed.

Lemma NextIDs_capacity_witness :
  (List.length (stamped 26179200000
                  (NextIDs 0 Sample.clock 0 4 Sample.gen 0)) <= 4096)%nat.
Proof.
  exact (NextIDs_capacity 0 Sample.clock 0 4 Sample.gen 0 26179200000
           Sample_gen_inv Sample_clock_fits).
Defined.
